(** * AI Interviewer backend: track inference, interview assembly and
      answer evaluation (src/main.py, src/schemas.py).

    The handlers of [main.py] are embedded as Rocq functions.  Python
    values are modelled as follows.

    - [str]: Rocq's [string]; a character is a code point below 256
      (the Latin-1 range), on which [str.lower], [str.split] and [in]
      are modelled exactly as CPython computes them.
    - [int]: [Z].
    - [float]: the exact rational value of a finite IEEE-754 binary64
      number, kept in lowest terms ([Q] after [Qred]); every float
      operation rounds its exact result to nearest, ties to even, with
      53 bits of precision and gradual underflow.
    - exceptions: the [result] type; [HTTPException] carries the status.
    - the storage collaborator ([database.py], not part of the sources
      at hand): an explicit store threaded through the handlers. *)

From Stdlib Require Import ZArith QArith Qround Qabs Qpower Lia Lqa List Bool Ascii String DecimalString.
From Stdlib Require Import SpecFloat.
Import ListNotations.

Local Open Scope string_scope.
Local Open Scope Z_scope.

(* ================================================================== *)
(** * Python strings *)
(* ================================================================== *)

Module PyStr.

(** Code point of a character. *)
Definition ord (c : ascii) : N := N_of_ascii c.

(** [c.lower()] for one code point below 256: 'A'..'Z' and the Latin-1
    capitals U+00C0..U+00DE (U+00D7, the multiplication sign, excepted)
    move up by 32; every other code point is unchanged. *)
Definition lower_char (c : ascii) : ascii :=
  let n := ord c in
  if (((65 <=? n) && (n <=? 90)) ||
      ((192 <=? n) && (n <=? 222) && negb (n =? 215)))%N
  then ascii_of_N (n + 32)
  else c.

(** [s.lower()] on a string whose code points are all below 256,
    where [str.lower] maps each character by itself.  (On other text
    [str.lower] also looks at the neighbours of a character, the
    final sigma for one; such text is outside the strings modelled
    here, and nothing below is stated about it.) *)
Fixpoint lower (s : string) : string :=
  match s with
  | EmptyString => EmptyString
  | String c s' => String (lower_char c) (lower s')
  end.

(** [c.isspace()] for a code point below 256: TAB, LF, VT, FF, CR,
    FS, GS, RS, US, SPACE, NEL (U+0085) and NBSP (U+00A0). *)
Definition isspace (c : ascii) : bool :=
  let n := ord c in
  (((9 <=? n) && (n <=? 13)) || ((28 <=? n) && (n <=? 32)) ||
   (n =? 133) || (n =? 160))%N.

(** [sub in s]: [sub] occurs in [s] as a contiguous substring. *)
Fixpoint contains (s sub : string) : bool :=
  String.prefix sub s ||
  match s with
  | EmptyString => false
  | String _ s' => contains s' sub
  end.

(** The words collected so far by [s.split()], [cur] being the word
    under construction (empty between words). *)
Definition flush (cur : string) (rest : list string) : list string :=
  match cur with
  | EmptyString => rest
  | _ => cur :: rest
  end.

Fixpoint split_from (cur : string) (s : string) : list string :=
  match s with
  | EmptyString => flush cur []
  | String c s' =>
      if isspace c then flush cur (split_from EmptyString s')
      else split_from (cur ++ String c EmptyString) s'
  end.

(** [s.split()]: the maximal runs of non-whitespace characters. *)
Definition split (s : string) : list string := split_from EmptyString s.

(** [sep.join(l)]. *)
Fixpoint join (sep : string) (l : list string) : string :=
  match l with
  | [] => EmptyString
  | [x] => x
  | x :: rest => x ++ sep ++ join sep rest
  end.

End PyStr.

(* ================================================================== *)
(** * Python floats *)
(* ================================================================== *)

Module PyFloat.

Local Open Scope Q_scope.

(** A finite binary64 number, as its exact value in lowest terms. *)
Definition float := Q.

(** [2 ^ e], for any integer exponent. *)
Definition pow2 (e : Z) : Q := (2 # 1) ^ e.

(** Rounding of a rational to the nearest integer, ties to the even
    one. *)
Definition rhe (x : Q) : Z :=
  let f := Qfloor x in
  match Qcompare (x - inject_Z f) (1 # 2) with
  | Lt => f
  | Gt => (f + 1)%Z
  | Eq => if Z.even f then f else (f + 1)%Z
  end.

(** [floor (log2 x)] for [x > 0]. *)
Definition binade (x : Q) : Z :=
  let d := (Z.log2 (Qnum x) - Z.log2 (Zpos (Qden x)))%Z in
  if Qle_bool (pow2 d) x then d else (d - 1)%Z.

(** Round-to-nearest-even of a positive rational into binary64: 53
    significant bits, least exponent -1074 (gradual underflow).  The
    exponent is not bounded above: an overflow needs a magnitude of
    2^1024, which no quantity of this program reaches. *)
Definition rnd_pos (x : Q) : Q :=
  let t := Z.max (binade x - 52) (-1074) in
  Qred (inject_Z (rhe (x * pow2 (- t))) * pow2 t).

(** Round-to-nearest-even of any rational. *)
Definition rnd (x : Q) : float :=
  let y := Qred x in
  match Qcompare y 0 with
  | Eq => 0
  | Gt => rnd_pos y
  | Lt => Qred (- rnd_pos (Qred (- y)))
  end.

(** A decimal literal [n / d] of the source, e.g. [50.0] or [74.99]. *)
Definition lit (n : Z) (d : positive) : float := rnd (n # d).

(** [float(n)] for an [int] [n], as done implicitly when an [int]
    meets a [float] in an arithmetic operation. *)
Definition of_int (n : Z) : float := rnd (inject_Z n).

(** [a / b] for two [int]s (true division, correctly rounded). *)
Definition int_truediv (a b : Z) : float := rnd (inject_Z a / inject_Z b).

(** [x + y] for two [float]s. *)
Definition add (x y : float) : float := rnd (x + y).

(** [x / n] for a [float] and an [int]. *)
Definition div_int (x : float) (n : Z) : float := rnd (x / of_int n).

(** [round(x, ndigits)] for [ndigits >= 0]: the exact value of [x] is
    rounded, ties to even, to [ndigits] decimal places, and the
    decimal obtained is converted back to the nearest float. *)
Definition round (x : float) (ndigits : nat) : float :=
  let p := inject_Z (10 ^ Z.of_nat ndigits) in
  rnd (inject_Z (rhe (x * p)) / p).

(** [x > n], [x >= n] for a [float] and an [int] (exact comparison). *)
Definition gt_int (x : float) (n : Z) : bool := negb (Qle_bool x (inject_Z n)).
Definition ge_int (x : float) (n : Z) : bool := Qle_bool (inject_Z n) x.

(** The value of a finite float of the Standard Library's
    specification of IEEE-754 arithmetic, against which the
    operations above are checked below; the float of a positive
    whole number. *)
Definition of_spec_float (f : spec_float) : option float :=
  match f with
  | S754_zero _ => Some 0
  | S754_finite s m e =>
      Some (Qred ((if s then - inject_Z (Z.pos m) else inject_Z (Z.pos m)) * pow2 e))
  | _ => None
  end.

Definition b64 (n : positive) : spec_float := S754_finite false n 0.

End PyFloat.

(* ================================================================== *)
(** * Data model (src/schemas.py) and request bodies (src/main.py) *)
(* ================================================================== *)

(** [class Question(BaseModel)]. *)
Record Question := mkQuestion {
  q_text : string;
  q_keywords : list string
}.

(** [class Interview(BaseModel)]. *)
Record Interview := mkInterview {
  i_role : string;
  i_description : string;
  i_level : string;
  i_num_questions : Z;
  i_questions : list Question
}.

(** [class Evaluation(BaseModel)]. *)
Record Evaluation := mkEvaluation {
  e_interview_id : string;
  e_candidate_name : string;
  e_answers : list string;
  e_per_question_scores : list PyFloat.float;
  e_per_question_feedback : list string;
  e_total_score : PyFloat.float;
  e_verdict : string
}.

(** [class InterviewRequest(BaseModel)]; [description] is
    [Optional[str]]. *)
Record InterviewRequest := mkInterviewRequest {
  ir_role : string;
  ir_level : string;
  ir_description : option string;
  ir_num_questions : Z
}.

(** [class EvaluateRequest(BaseModel)]. *)
Record EvaluateRequest := mkEvaluateRequest {
  er_interview_id : string;
  er_candidate_name : string;
  er_answers : list string
}.

(** Outcome of a request handler: a value, an [HTTPException] raised
    by the handler, or any other exception, which leaves the handler
    uncaught. *)
Inductive result (A : Type) : Type :=
| Ok (a : A)
| HTTPException (status_code : Z) (detail : string)
| Uncaught (exception : string).

Arguments Ok {A} a.
Arguments HTTPException {A} status_code detail.
Arguments Uncaught {A} exception.

(** Sequencing: an exception of the first computation skips the
    second one. *)
Definition bind {A B : Type} (r : result A) (k : A -> result B) : result B :=
  match r with
  | Ok a => k a
  | HTTPException c d => HTTPException c d
  | Uncaught e => Uncaught e
  end.

Notation "x <- r ;; k" := (bind r (fun x => k))
  (at level 61, r at next level, right associativity).

(* ================================================================== *)
(** * Stored documents *)
(* ================================================================== *)

(** A value held in a field of a stored document. *)
#[warnings="-register-all"] Inductive value : Type :=
| VNone
| VBool (b : bool)
| VInt (n : Z)
| VFloat (x : PyFloat.float)
| VStr (s : string)
| VList (l : list value)
| VDict (fields : list (string * value)).

(** A Python [dict] with string keys, in insertion order. *)
Definition dict (A : Type) := list (string * A).

(** [d.get(key)], [None] standing for an absent key. *)
Fixpoint dict_get {A : Type} (d : dict A) (key : string) : option A :=
  match d with
  | [] => None
  | (k, v) :: d' => if String.eqb k key then Some v else dict_get d' key
  end.

(** [d.get(key, default)]. *)
Definition dict_get_default {A : Type} (d : dict A) (key : string) (default : A) : A :=
  match dict_get d key with
  | Some v => v
  | None => default
  end.

(** A document as the store returns it: the identifier the store
    assigned ([_id], given here by its [str()]) and the fields. *)
Record Document := mkDocument {
  doc__id : string;
  doc_fields : dict value
}.

(** [model_dump()] of the models written to the store. *)
Definition dump_question (q : Question) : value :=
  VDict [("text", VStr (q_text q));
         ("keywords", VList (map VStr (q_keywords q)))].

Definition dump_interview (i : Interview) : dict value :=
  [("role", VStr (i_role i));
   ("description", VStr (i_description i));
   ("level", VStr (i_level i));
   ("num_questions", VInt (i_num_questions i));
   ("questions", VList (map dump_question (i_questions i)))].

Definition dump_evaluation (e : Evaluation) : dict value :=
  [("interview_id", VStr (e_interview_id e));
   ("candidate_name", VStr (e_candidate_name e));
   ("answers", VList (map VStr (e_answers e)));
   ("per_question_scores", VList (map VFloat (e_per_question_scores e)));
   ("per_question_feedback", VList (map VStr (e_per_question_feedback e)));
   ("total_score", VFloat (e_total_score e));
   ("verdict", VStr (e_verdict e))].

(* ================================================================== *)
(** * The storage collaborator *)
(* ================================================================== *)

(** The store: its collections by name, each listed in the order in
    which the store returns it (most recent first), the number of
    identifiers assigned so far, and the exception, if any, that its
    reads and its writes currently raise. *)
Record Store := mkStore {
  collections : dict (list Document);
  assigned : nat;
  read_fault : option string;
  write_fault : option string
}.

(** Replaces, or adds, the entry of [key]. *)
Fixpoint dict_set {A : Type} (d : dict A) (key : string) (v : A) : dict A :=
  match d with
  | [] => [(key, v)]
  | (k, w) :: d' =>
      if String.eqb k key then (k, v) :: d' else (k, w) :: dict_set d' key v
  end.

(** The identifier assigned to the [n]-th document written. *)
Definition object_id (n : nat) : string :=
  "oid-" ++ DecimalString.NilZero.string_of_uint (Nat.to_uint n).

(** Modelled from the spec: [database.create_document(collection, doc)
    -> id], which is not part of the sources at hand.  The document
    is stored under a fresh identifier, which is returned ([inl]); a
    storage failure raises ([inr], with the text of the exception) and
    stores nothing. *)
Definition create_document (st : Store) (collection : string) (data : dict value)
  : Store * (string + string) :=
  match write_fault st with
  | None =>
      let oid := object_id (assigned st) in
      let docs := dict_get_default (collections st) collection [] in
      (mkStore (dict_set (collections st) collection (mkDocument oid data :: docs))
               (S (assigned st)) (read_fault st) (write_fault st),
       inl oid)
  | Some e => (st, inr e)
  end.

(** Modelled from the spec: [database.get_documents(collection,
    filter, limit) -> ordered sequence of documents], which is not
    part of the sources at hand.  At most [limit] documents of the
    collection are returned, the most recent first ([inl]); a storage
    failure raises ([inr]).  The two filters passed by [main.py], [{}] and
    [{"_id": {"$exists": True}}], select every document, each having
    an [_id]. *)
Definition get_documents (st : Store) (collection : string) (limit : nat)
  : list Document + string :=
  match read_fault st with
  | None => inl (firstn limit (dict_get_default (collections st) collection []))
  | Some e => inr e
  end.

(* ================================================================== *)
(** * Rule-based generation (src/main.py) *)
(* ================================================================== *)

(** [BASE_QUESTIONS]. *)
Definition BASE_QUESTIONS : dict (list (string * list string)) :=
  [("frontend",
    [("Explain the virtual DOM and how React reconciles updates.",
      ["virtual dom"; "reconciliation"; "diffing"; "fibers"]);
     ("What are the differences between useEffect and useLayoutEffect?",
      ["timing"; "layout"; "paint"; "cleanup"]);
     ("How would you optimize a large list rendering in React?",
      ["virtualize"; "memo"; "useMemo"; "useCallback"; "key"]);
     ("Describe how CSS specificity works and how to avoid conflicts.",
      ["specificity"; "cascade"; "!important"; "BEM"]);
     ("How do you handle state management at scale?",
      ["redux"; "zustand"; "context"; "atom"; "query"])]);
   ("backend",
    [("Explain ACID properties in databases.",
      ["atomicity"; "consistency"; "isolation"; "durability"]);
     ("How does an index work in MongoDB and when to use it?",
      ["b-tree"; "performance"; "query"; "sort"]);
     ("Describe differences between multiprocessing and multithreading in Python.",
      ["GIL"; "cpu-bound"; "io-bound"]);
     ("How would you design a rate limiter for an API?",
      ["token bucket"; "leaky bucket"; "redis"; "sliding window"]);
     ("What is idempotency and why is it important for APIs?",
      ["safe"; "retry"; "PUT"; "POST"])])].

(** [ROLE_DEFAULT]. *)
Definition ROLE_DEFAULT : dict string :=
  [("frontend", "Frontend Engineer");
   ("backend", "Backend Engineer")].

(** [infer_track(role)]. *)
Definition infer_track (role : string) : string :=
  let r := PyStr.lower role in
  if PyStr.contains r "front" || PyStr.contains r "react" then "frontend"
  else if PyStr.contains r "back" || PyStr.contains r "api" then "backend"
  else "frontend".

(** [x or y] for two strings: [x] unless it is empty. *)
Definition str_or (x y : string) : string :=
  match x with
  | EmptyString => y
  | _ => x
  end.

(** [x or y] for an optional string: [x] unless it is [None] or
    empty. *)
Definition opt_str_or (x : option string) (y : string) : string :=
  match x with
  | Some s => str_or s y
  | None => y
  end.

(** [l[:k]] for [k >= 0]. *)
Definition slice_to {A : Type} (l : list A) (k : Z) : list A :=
  firstn (Z.to_nat k) l.

(** [len(l)]. *)
Definition len {A : Type} (l : list A) : Z := Z.of_nat (List.length l).

(** The questions selected by [create_interview]:
    [BASE_QUESTIONS.get(track, [])[: max(1, min(num_questions, 10))]],
    each pair turned into a [Question]. *)
Definition select_questions (track : string) (num_questions : Z) : list Question :=
  let qa := slice_to (dict_get_default BASE_QUESTIONS track [])
                     (Z.max 1 (Z.min num_questions 10)) in
  map (fun '(q, keys) => mkQuestion q keys) qa.

(** The constructor [Interview(...)]: pydantic checks
    [num_questions] against [ge=1, le=15] and raises a
    [ValidationError] otherwise. *)
Definition new_Interview (role description level : string) (num_questions : Z)
    (questions : list Question) : result Interview :=
  if (1 <=? num_questions) && (num_questions <=? 15)
  then Ok (mkInterview role description level num_questions questions)
  else Uncaught "ValidationError".

(** The [Interview] that [create_interview] builds before it is
    stored. *)
Definition build_interview (req : InterviewRequest) : result Interview :=
  let track := infer_track (ir_role req) in
  let questions := select_questions track (ir_num_questions req) in
  new_Interview
    (str_or (ir_role req) (dict_get_default ROLE_DEFAULT track (ir_role req)))
    (opt_str_or (ir_description req) ("Interview for " ++ ir_role req))
    (ir_level req)
    (len questions)
    questions.

(** [POST /api/interviews]: the interview is returned with the
    identifier under which it was stored. *)
Definition create_interview (st : Store) (req : InterviewRequest)
  : Store * result (Interview * string) :=
  match build_interview req with
  | Ok interview =>
      match create_document st "interview" (dump_interview interview) with
      | (st', inl interview_id) => (st', Ok (interview, interview_id))
      | (st', inr e) => (st', HTTPException 500 ("Database error: " ++ e))
      end
  | HTTPException c d => (st, HTTPException c d)
  | Uncaught e => (st, Uncaught e)
  end.

(* ================================================================== *)
(** * Rule-based evaluation (src/main.py) *)
(* ================================================================== *)

(** The test of the lookup loop:
    [str(it.get("_id")) == interview_id or it.get("id") == interview_id]. *)
Definition doc_matches (interview_id : string) (it : Document) : bool :=
  String.eqb (doc__id it) interview_id ||
  match dict_get (doc_fields it) "id" with
  | Some (VStr s) => String.eqb s interview_id
  | _ => false
  end.

(** The lookup loop: the first document that matches, if any. *)
Fixpoint find_interview (interviews : list Document) (interview_id : string)
  : option Document :=
  match interviews with
  | [] => None
  | it :: rest =>
      if doc_matches interview_id it then Some it
      else find_interview rest interview_id
  end.

(** The items a [for] loop draws from a value: the elements of a
    list, the characters of a string, the keys of a dict; any other
    value is not iterable. *)
Definition py_iter (v : value) : result (list value) :=
  match v with
  | VList l => Ok l
  | VStr s => Ok (map (fun c => VStr (String c EmptyString)) (list_ascii_of_string s))
  | VDict d => Ok (map (fun kv => VStr (fst kv)) d)
  | _ => Uncaught "TypeError"
  end.

(** The strings of a list of values, if all of them are strings. *)
Fixpoint all_str (l : list value) : option (list string) :=
  match l with
  | [] => Some []
  | VStr s :: l' =>
      match all_str l' with
      | Some r => Some (s :: r)
      | None => None
      end
  | _ :: _ => None
  end.

(** The [Question] built from the keys of a dict [q]: [text] is required and must be a
    string, [keywords] defaults to the empty list and must be a list
    of strings, other keys are ignored. *)
Definition parse_question (q : dict value) : result Question :=
  match dict_get q "text" with
  | Some (VStr t) =>
      match dict_get q "keywords" with
      | None => Ok (mkQuestion t [])
      | Some (VList ks) =>
          match all_str ks with
          | Some keys => Ok (mkQuestion t keys)
          | None => Uncaught "ValidationError"
          end
      | Some _ => Uncaught "ValidationError"
      end
  | _ => Uncaught "ValidationError"
  end.

(** An element of [q_models]: a [Question], or the stored value
    itself when it is not a dict. *)
Inductive q_model : Type :=
| QModel (q : Question)
| QOther (v : value).

(** One iteration of the conversion loop:
    [Question] built from [q] if [q] is a dict, [q] itself otherwise. *)
Definition convert_question (q : value) : result q_model :=
  match q with
  | VDict d => m <- parse_question d ;; Ok (QModel m)
  | _ => Ok (QOther q)
  end.

(** The conversion loop of [evaluate_answers]. *)
Fixpoint convert_questions (questions : list value) : result (list q_model) :=
  match questions with
  | [] => Ok []
  | q :: rest =>
      m <- convert_question q ;;
      ms <- convert_questions rest ;;
      Ok (m :: ms)
  end.

(** The first part of [evaluate_answers]: the stored interviews are
    read, the interview is looked up and its questions are converted
    into [q_models]. *)
Definition load_questions (st : Store) (interview_id : string) : result (list q_model) :=
  match get_documents st "interview" 100 with
  | inr e => HTTPException 500 ("Database error: " ++ e)
  | inl interviews =>
      match find_interview interviews interview_id with
      | None => HTTPException 404 "Interview not found"
      | Some interview_doc =>
          let questions :=
            dict_get_default (doc_fields interview_doc) "questions" (VList []) in
          items <- py_iter questions ;;
          convert_questions items
      end
  end.

(** [sum(l)] for a list of [int]s. *)
Definition py_sum (l : list Z) : Z := fold_left Z.add l 0.

(** [sum(1 for k in keywords if k.lower() in ans)]. *)
Definition covered (keywords : list string) (ans : string) : Z :=
  py_sum (map (fun _ => 1)
              (filter (fun k => PyStr.contains ans (PyStr.lower k)) keywords)).

(** The score of one question, [ans] being the lower-cased answer. *)
Definition score_of (q : Question) (ans : string) : PyFloat.float :=
  match q_keywords q with
  | _ :: _ =>
      PyFloat.round
        (PyFloat.int_truediv (100 * covered (q_keywords q) ans) (len (q_keywords q))) 2
  | [] =>
      if len (PyStr.split ans) >? 5 then PyFloat.lit 50 1 else PyFloat.lit 20 1
  end.

(** [[k for k in keywords if k.lower() not in ans]]. *)
Definition missing (keywords : list string) (ans : string) : list string :=
  filter (fun k => negb (PyStr.contains ans (PyStr.lower k))) keywords.

(** The feedback of one question, from its score and its missing
    keywords. *)
Definition feedback_of (score : PyFloat.float) (missing : list string) : string :=
  if PyFloat.gt_int score 70 then "Good coverage."
  else match missing with
       | _ :: _ => "Missing: " ++ PyStr.join ", " missing
       | [] => "Could be more specific."
       end.

(** The variables the scoring loop updates. *)
Record Acc := mkAcc {
  per_scores : list PyFloat.float;
  per_feedback : list string;
  total : PyFloat.float
}.

(** One iteration of the scoring loop, on [q = q_models[i]]. *)
Definition score_step (answers : list string) (i : nat) (q : q_model) (acc : Acc)
  : result Acc :=
  match nth_error answers i with
  | None => Uncaught "IndexError"
  | Some a =>
      let ans := PyStr.lower a in
      match q with
      | QOther _ => Uncaught "AttributeError"
      | QModel q =>
          let score := score_of q ans in
          let fb := feedback_of score (missing (q_keywords q) ans) in
          Ok (mkAcc (per_scores acc ++ [score])
                    (per_feedback acc ++ [fb])
                    (PyFloat.add (total acc) score))
      end
  end.

(** The scoring loop, [for i, q in enumerate(q_models)], from index
    [i] on. *)
Fixpoint score_loop (answers : list string) (i : nat) (q_models : list q_model)
    (acc : Acc) : result Acc :=
  match q_models with
  | [] => Ok acc
  | q :: rest =>
      acc' <- score_step answers i q acc ;;
      score_loop answers (S i) rest acc'
  end.

(** The verdict, from the average. *)
Definition verdict_of (avg : PyFloat.float) : string :=
  if PyFloat.ge_int avg 75 then "Strong match"
  else if PyFloat.ge_int avg 50 then "Promising but needs work"
  else "Below expectations".

(** [round(total / len(q_models), 2) if q_models else 0.0]. *)
Definition average (total : PyFloat.float) (q_models : list q_model) : PyFloat.float :=
  match q_models with
  | _ :: _ => PyFloat.round (PyFloat.div_int total (len q_models)) 2
  | [] => PyFloat.lit 0 1
  end.

(** The second part of [evaluate_answers]: the answers are checked
    against [q_models] and scored, and the [Evaluation] is built. *)
Definition score_answers (req : EvaluateRequest) (q_models : list q_model)
  : result Evaluation :=
  let answers := er_answers req in
  if negb (len answers =? len q_models) then
    HTTPException 400 "Answers length must match number of questions"
  else
    acc <- score_loop answers 0 q_models (mkAcc [] [] (PyFloat.lit 0 1)) ;;
    let avg := average (total acc) q_models in
    Ok (mkEvaluation (er_interview_id req) (er_candidate_name req) (er_answers req)
                     (per_scores acc) (per_feedback acc) avg (verdict_of avg)).

(** [POST /api/evaluate].  The exception that [create_document] may
    raise is caught and dropped. *)
Definition evaluate_answers (st : Store) (req : EvaluateRequest)
  : Store * result Evaluation :=
  match load_questions st (er_interview_id req) with
  | HTTPException c d => (st, HTTPException c d)
  | Uncaught e => (st, Uncaught e)
  | Ok q_models =>
      match score_answers req q_models with
      | HTTPException c d => (st, HTTPException c d)
      | Uncaught e => (st, Uncaught e)
      | Ok evaluation =>
          let (st', _) := create_document st "evaluation" (dump_evaluation evaluation) in
          (st', Ok evaluation)
      end
  end.

(* ================================================================== *)
(** * Notions of the specification *)
(* ================================================================== *)

Module Spec.

(** [sub] occurs in [s]: some characters, then [sub], then the rest. *)
Definition substring (sub s : string) : Prop :=
  exists pre post : string, s = pre ++ sub ++ post.

(** The keyword [k] occurs in the answer [a] as a case-insensitive
    substring. *)
Definition ci_substring (k a : string) : bool :=
  PyStr.contains (PyStr.lower a) (PyStr.lower k).

(** The keywords found in the answer, and those not found, in the
    order of the keyword list. *)
Definition found (keywords : list string) (a : string) : list string :=
  filter (fun k => ci_substring k a) keywords.

Definition not_found (keywords : list string) (a : string) : list string :=
  filter (fun k => negb (ci_substring k a)) keywords.

(** Number of whitespace-separated words of the answer. *)
Definition word_count (a : string) : nat := List.length (PyStr.split a).

(** [clamp(n, lo, hi)]. *)
Definition clamp (n lo hi : Z) : Z :=
  if n <? lo then lo else if hi <? n then hi else n.

(** The static bank of a track, as [Question]s. *)
Definition bank (track : string) : list Question :=
  map (fun '(q, keys) => mkQuestion q keys)
      (dict_get_default BASE_QUESTIONS track []).

(** The score of the answer [a] to the question [q]: keyword
    coverage, or the word-count rule when there is no keyword. *)
Definition question_score (q : Question) (a : string) : PyFloat.float :=
  match q_keywords q with
  | [] => if (5 <? word_count a)%nat then PyFloat.lit 50 1 else PyFloat.lit 20 1
  | _ :: _ =>
      PyFloat.round
        (PyFloat.int_truediv (100 * Z.of_nat (List.length (found (q_keywords q) a)))
                             (Z.of_nat (List.length (q_keywords q)))) 2
  end.

(** The feedback on the answer [a] to the question [q]. *)
Definition question_feedback (q : Question) (a : string) : string :=
  if PyFloat.gt_int (question_score q a) 70 then "Good coverage."
  else match not_found (q_keywords q) a with
       | [] => "Could be more specific."
       | ks => "Missing: " ++ PyStr.join ", " ks
       end.

(** Sum of a list of floats, from [0.0], left to right; their mean. *)
Definition float_sum (l : list PyFloat.float) : PyFloat.float :=
  fold_left PyFloat.add l (PyFloat.lit 0 1).

Definition mean (l : list PyFloat.float) : PyFloat.float :=
  PyFloat.div_int (float_sum l) (len l).

(** The aggregate score of a list of per-question scores. *)
Definition total_score (scores : list PyFloat.float) : PyFloat.float :=
  match scores with
  | [] => PyFloat.lit 0 1
  | _ :: _ => PyFloat.round (mean scores) 2
  end.

(** The [Evaluation] of the answers of [req] to the questions [qs]. *)
Definition evaluation_of (req : EvaluateRequest) (qs : list Question) : Evaluation :=
  let pairs := combine qs (er_answers req) in
  let scores := map (fun qa => question_score (fst qa) (snd qa)) pairs in
  mkEvaluation (er_interview_id req) (er_candidate_name req) (er_answers req)
               scores
               (map (fun qa => question_feedback (fst qa) (snd qa)) pairs)
               (total_score scores)
               (verdict_of (total_score scores)).

(** A score between 0 and 100. *)
Definition in_0_100 (x : PyFloat.float) : Prop := (0 <= x /\ x <= 100)%Q.

(** The store [st], its writes raising [w] (or succeeding, for
    [None]). *)
Definition with_write_fault (st : Store) (w : option string) : Store :=
  mkStore (collections st) (assigned st) (read_fault st) w.

End Spec.

(* ================================================================== *)
(** * Sample data *)
(* ================================================================== *)

Module Sample.

(** A stored interview of three questions: one with the keywords of
    the bank, one without a [keywords] field, one with an empty
    keyword list. *)
Definition interview_doc : Document :=
  mkDocument "65f1c0ffee"
    [("role", VStr "Backend Engineer");
     ("level", VStr "mid");
     ("questions",
      VList
        [VDict [("text", VStr "Explain ACID properties in databases.");
                ("keywords", VList [VStr "atomicity"; VStr "consistency";
                                    VStr "isolation"; VStr "durability"])];
         VDict [("text", VStr "Describe a system you are proud of.")];
         VDict [("text", VStr "Why do you want this job?");
                ("keywords", VList [])]])].

Definition questions : list Question :=
  [mkQuestion "Explain ACID properties in databases."
              ["atomicity"; "consistency"; "isolation"; "durability"];
   mkQuestion "Describe a system you are proud of." [];
   mkQuestion "Why do you want this job?" []].

(** A store that holds this interview, and the same store when its
    writes fail. *)
Definition store : Store :=
  mkStore [("interview", [interview_doc])] 1 None None.

Definition failing_store : Store :=
  mkStore [("interview", [interview_doc])] 1 None (Some "Database not available").

(** Three answers to the three questions. *)
Definition request : EvaluateRequest :=
  mkEvaluateRequest "65f1c0ffee" "Ada"
    ["The database guarantees atomicity and consistency";
     "It was a billing pipeline handling many events";
     "Good pay"].


Definition unknown_request : EvaluateRequest :=
  mkEvaluateRequest "0000000000" "Ada" ["first"; "second"; "third"].

(** The evaluation of [request]. *)
Definition evaluation : Evaluation :=
  mkEvaluation "65f1c0ffee" "Ada"
    ["The database guarantees atomicity and consistency";
     "It was a billing pipeline handling many events";
     "Good pay"]
    [PyFloat.lit 50 1; PyFloat.lit 50 1; PyFloat.lit 20 1]
    ["Missing: isolation, durability"; "Could be more specific.";
     "Could be more specific."]
    (PyFloat.lit 40 1)
    "Below expectations".

(** An interview request. *)
Definition interview_request : InterviewRequest :=
  mkInterviewRequest "Backend API Engineer" "senior" None 3.

End Sample.

(* ================================================================== *)
(** * Listing and diagnostics (src/main.py) *)
(* ================================================================== *)

(** The body of the loop of [list_interviews] on one document:
    [d["id"] = str(d.pop("_id"))].  The key [_id] leaves the dict and
    the key [id] is set, in place when the dict has it already and at
    the end otherwise. *)
Definition mask_id (d : Document) : dict value :=
  dict_set (doc_fields d) "id" (VStr (doc__id d)).

(** [GET /api/interviews], for a limit that is a natural number.  The
    handler reads and does not write. *)
Definition list_interviews (st : Store) (limit : nat) : result (list (dict value)) :=
  match get_documents st "interview" limit with
  | inl docs => Ok (map mask_id docs)
  | inr e => HTTPException 500 ("Database error: " ++ e)
  end.

(** [s[:n]] for [n >= 0]. *)
Fixpoint str_take (n : nat) (s : string) : string :=
  match n, s with
  | S n', String c s' => String c (str_take n' s')
  | _, _ => EmptyString
  end.

(** What [test_database] consults: the handle [db] of the module
    [database] ([None] when the connection was not set up), with the
    outcome of reading its attribute [name] (its value, [None] when
    the handle has no such attribute, or, on the right, the text of
    the exception that the reading raises) and the outcome of
    [list_collection_names()] (the names, or the text of the exception
    raised); and the two environment variables. *)
Record Db := mkDb {
  db_name : option string + string;
  db_list_collection_names : list string + string
}.

Record Env := mkEnv {
  env_db : option Db;
  env_DATABASE_URL : option string;
  env_DATABASE_NAME : option string
}.

(** The dict [response] of [test_database]; [None] is the initial
    value of its two middle fields. *)
Record Diagnostics := mkDiagnostics {
  dg_backend : string;
  dg_database : string;
  dg_database_url : option string;
  dg_database_name : option string;
  dg_connection_status : string;
  dg_collections : list string
}.

(** The marks of the messages, each a single character in the source
    and kept here as the bytes of its UTF-8 encoding. *)
Definition mark_ok : string := "✅".
Definition mark_no : string := "❌".
Definition mark_warn : string := "⚠️".

(** [os.getenv(name)] used as a condition: set and not empty. *)
Definition getenv_truthy (v : option string) : bool :=
  match v with
  | Some (String _ _) => true
  | _ => false
  end.

(** ["✅ Set" if os.getenv(name) else "❌ Not Set"]. *)
Definition set_or_not (v : option string) : string :=
  if getenv_truthy v then mark_ok ++ " Set" else mark_no ++ " Not Set".

(** The part of [test_database] under the outer [try]: the fields
    are filled in from the handle, one after the other.  An exception
    raised while the name of the handle is read is caught by the outer
    [except]: the fields set before stay, the others keep their
    initial values.  An exception of [list_collection_names()] is
    caught by the inner [except]. *)
Definition probe_database (env : Env) (response : Diagnostics) : Diagnostics :=
  match env_db env with
  | Some db =>
      let url := set_or_not (env_DATABASE_URL env) in
      match db_name db with
      | inr e =>
          mkDiagnostics (dg_backend response) (mark_no ++ " Error: " ++ str_take 50 e)
                        (Some url) (dg_database_name response)
                        (dg_connection_status response) (dg_collections response)
      | inl attribute =>
          let name :=
            match attribute with
            | Some n => n
            | None => mark_ok ++ " Connected"
            end in
          match db_list_collection_names db with
          | inl collections =>
              mkDiagnostics (dg_backend response) (mark_ok ++ " Connected & Working")
                            (Some url) (Some name) "Connected" (firstn 10 collections)
          | inr e =>
              mkDiagnostics (dg_backend response)
                            (mark_warn ++ "  Connected but Error: " ++ str_take 50 e)
                            (Some url) (Some name) "Connected" (dg_collections response)
          end
      end
  | None =>
      mkDiagnostics (dg_backend response) (mark_warn ++ "  Available but not initialized")
                    (dg_database_url response) (dg_database_name response)
                    (dg_connection_status response) (dg_collections response)
  end.

(** [GET /test]. *)
Definition test_database (env : Env) : Diagnostics :=
  let response :=
    mkDiagnostics (mark_ok ++ " Running") (mark_no ++ " Not Available")
                  None None "Not Connected" [] in
  let response := probe_database env response in
  mkDiagnostics (dg_backend response) (dg_database response)
                (Some (set_or_not (env_DATABASE_URL env)))
                (Some (set_or_not (env_DATABASE_NAME env)))
                (dg_connection_status response) (dg_collections response).

(** Every string of a list, lower-cased. *)
Definition lower_all (l : list string) : list string := map PyStr.lower l.

(** More sample data: an interview request whose role is empty, and a
    store whose reads fail. *)
Module Sample2.

Definition empty_role_request : InterviewRequest :=
  mkInterviewRequest "" "junior" (Some "") 7.

Definition unreadable_store : Store :=
  mkStore [("interview", [Sample.interview_doc])] 1 (Some "Database not available") None.

(** A stored interview with a question that has no text, one whose
    entries are not all dicts, and one without questions. *)
Definition no_text_doc : Document :=
  mkDocument "aa01"
    [("questions", VList [VDict [("keywords", VList [VStr "redis"])]])].

Definition not_a_dict_doc : Document :=
  mkDocument "aa02" [("questions", VList [VStr "What is an index?"])].

Definition no_questions_doc : Document :=
  mkDocument "aa03" [("role", VStr "Backend Engineer"); ("id", VStr "legacy-7")].

Definition odd_store : Store :=
  mkStore [("interview", [no_text_doc; not_a_dict_doc; no_questions_doc])] 3 None None.

(** A question fully covered by its answer. *)
Definition covered_request : EvaluateRequest :=
  mkEvaluateRequest "65f1c0ffee" "Ada"
    ["Atomicity, Consistency, Isolation and Durability";
     "It was a billing pipeline handling many events";
     "Good pay"].

(** A stored interview whose two questions have no keywords. *)
Definition plain_doc : Document :=
  mkDocument "aa04"
    [("questions",
      VList [VDict [("text", VStr "Tell me about yourself.")];
             VDict [("text", VStr "Where do you see yourself in five years?")]])].

Definition plain_store : Store :=
  mkStore [("interview", [plain_doc])] 5 None None.

Definition plain_request : EvaluateRequest :=
  mkEvaluateRequest "aa04" "Ada" ["I build things"; "Here"].

Definition env : Env :=
  mkEnv (Some (mkDb (inl (Some "interviewer"))
                    (inl ["a"; "b"; "c"; "d"; "e"; "f"; "g"; "h"; "i"; "j"; "k"; "l"])))
        (Some "mongodb://localhost") (Some "").

(** The same, with a handle whose name cannot be read. *)
Definition broken_env : Env :=
  mkEnv (Some (mkDb (inr "connection reset") (inl ["a"])))
        (Some "mongodb://localhost") None.

End Sample2.

(* ================================================================== *)
(** * Facts on the rounding of floats *)
(* ================================================================== *)

Module PyFloatFacts.
Import PyFloat.
Local Open Scope Q_scope.

Lemma pow2_pos (e : Z) : 0 < pow2 e.
Proof. unfold pow2. apply Qpower_0_lt. reflexivity. Qed.

Lemma pow2_add (a b : Z) : pow2 (a + b) == pow2 a * pow2 b.
Proof. unfold pow2. apply Qpower_plus. discriminate. Qed.

Lemma pow2_int (k : Z) : (0 <= k)%Z -> pow2 k == inject_Z (2 ^ k).
Proof. intros Hk. unfold pow2. symmetry. apply (Zpower_Qpower 2 k Hk). Qed.

Lemma pow2_le (a b : Z) : (a <= b)%Z -> pow2 a <= pow2 b.
Proof. intros H. unfold pow2. apply Qpower_le_compat_l; [exact H | discriminate]. Qed.

Lemma pow2_cancel (k : Z) : pow2 k * pow2 (- k) == 1.
Proof. rewrite <- pow2_add. replace (k + - k)%Z with 0%Z by lia. reflexivity. Qed.

Lemma rhe_le (x : Q) (M : Z) : x <= inject_Z M -> (rhe x <= M)%Z.
Proof.
  intros H. unfold rhe.
  pose proof (Qfloor_le x) as Hf.
  assert (Hfm : (Qfloor x <= M)%Z).
  { rewrite <- (Qfloor_Z M). apply Qfloor_resp_le. exact H. }
  destruct (Z.eq_dec (Qfloor x) M) as [E | NE].
  - assert (Hx : x - inject_Z (Qfloor x) <= 0). { rewrite E. clear - H. lra. }
    assert (Hc : (x - inject_Z (Qfloor x) ?= 1 # 2) = Lt).
    { apply (proj1 (Qlt_alt _ _)). lra. }
    rewrite Hc. lia.
  - destruct (x - inject_Z (Qfloor x) ?= 1 # 2); [destruct (Z.even _) | |]; lia.
Qed.

Lemma rhe_ge (x : Q) (M : Z) : inject_Z M <= x -> (M <= rhe x)%Z.
Proof.
  intros H. unfold rhe.
  assert (Hfm : (M <= Qfloor x)%Z).
  { rewrite <- (Qfloor_Z M). apply Qfloor_resp_le. exact H. }
  destruct (x - inject_Z (Qfloor x) ?= 1 # 2); [destruct (Z.even _) | |]; lia.
Qed.

Lemma rhe_inject (n : Z) : rhe (inject_Z n) = n.
Proof.
  apply Z.le_antisymm; [apply rhe_le | apply rhe_ge]; apply Qle_refl.
Qed.

Lemma binade_le (x : Q) : 0 < x -> pow2 (binade x) <= x.
Proof.
  destruct x as [a b]. intros Hx.
  assert (Ha : (0 < a)%Z).
  { unfold Qlt in Hx. simpl in Hx. lia. }
  unfold binade. cbn [Qnum Qden].
  set (la := Z.log2 a). set (lb := Z.log2 (Z.pos b)).
  destruct (Qle_bool (pow2 (la - lb)) (a # b)) eqn:E.
  - apply Qle_bool_iff. exact E.
  - clear E.
    assert (Hla : pow2 la <= inject_Z a).
    { rewrite pow2_int by apply Z.log2_nonneg.
      rewrite <- Zle_Qle. apply (Z.log2_spec a Ha). }
    assert (Hlb : inject_Z (Z.pos b) <= pow2 (lb + 1)).
    { rewrite pow2_int by (pose proof (Z.log2_nonneg (Z.pos b)); unfold lb; lia).
      rewrite <- Zle_Qle.
      pose proof (Z.log2_spec (Z.pos b) eq_refl) as [_ H]. unfold lb.
      replace (Z.log2 (Z.pos b) + 1)%Z with (Z.succ (Z.log2 (Z.pos b))) by lia. lia. }
    assert (Hadd : pow2 (la - lb - 1) * pow2 (lb + 1) == pow2 la).
    { rewrite <- pow2_add. replace (la - lb - 1 + (lb + 1))%Z with la by lia. reflexivity. }
    rewrite (Qmake_Qdiv a b).
    apply Qle_shift_div_l.
    + reflexivity.
    + pose proof (pow2_pos (la - lb - 1)) as HP.
      apply Qle_trans with (pow2 (la - lb - 1) * pow2 (lb + 1)).
      * apply Qmult_le_l; assumption.
      * rewrite Hadd. exact Hla.
Qed.

Lemma binade_lt (x : Q) (n : Z) : 0 < x -> x < pow2 n -> (binade x < n)%Z.
Proof.
  intros Hx Hn.
  apply (Qpower_lt_compat_l_inv (2 # 1)); [| reflexivity].
  apply Qle_lt_trans with x; [apply binade_le; exact Hx | exact Hn].
Qed.

(** Below [2^53] the rounding keeps a whole number of units
    [2^(-k)], [k >= 0]. *)
Lemma rnd_pos_small (x : Q) :
  0 < x -> x < pow2 53 ->
  exists k : Z, (0 <= k)%Z /\
    rnd_pos x == inject_Z (rhe (x * pow2 k)) * pow2 (- k).
Proof.
  intros Hx H53.
  pose proof (binade_lt x 53 Hx H53) as Hb.
  unfold rnd_pos.
  set (t := Z.max (binade x - 52) (-1074)).
  exists (- t)%Z. split; [lia |].
  rewrite Qred_correct. rewrite Z.opp_involutive. reflexivity.
Qed.

Lemma rnd_pos_le_int (x : Q) (N : Z) :
  0 < x -> x <= inject_Z N -> (N < 2 ^ 53)%Z -> rnd_pos x <= inject_Z N.
Proof.
  intros Hx HN H53.
  assert (Hlt : x < pow2 53).
  { apply Qle_lt_trans with (inject_Z N); [exact HN |].
    rewrite pow2_int by lia. rewrite <- Zlt_Qlt. exact H53. }
  destruct (rnd_pos_small x Hx Hlt) as (k & Hk & ->).
  assert (Hr : (rhe (x * pow2 k) <= N * 2 ^ k)%Z).
  { apply rhe_le. rewrite inject_Z_mult, <- pow2_int by exact Hk.
    apply Qmult_le_compat_r; [exact HN | apply Qlt_le_weak, pow2_pos]. }
  apply Qle_trans with (inject_Z (N * 2 ^ k) * pow2 (- k)).
  - apply Qmult_le_compat_r; [| apply Qlt_le_weak, pow2_pos].
    rewrite <- Zle_Qle. exact Hr.
  - rewrite inject_Z_mult, <- pow2_int by exact Hk.
    rewrite <- Qmult_assoc, pow2_cancel, Qmult_1_r. apply Qle_refl.
Qed.

Lemma rnd_pos_ge_int (x : Q) (N : Z) :
  0 < x -> inject_Z N <= x -> x < pow2 53 -> inject_Z N <= rnd_pos x.
Proof.
  intros Hx HN Hlt.
  destruct (rnd_pos_small x Hx Hlt) as (k & Hk & ->).
  assert (Hr : (N * 2 ^ k <= rhe (x * pow2 k))%Z).
  { apply rhe_ge. rewrite inject_Z_mult, <- pow2_int by exact Hk.
    apply Qmult_le_compat_r; [exact HN | apply Qlt_le_weak, pow2_pos]. }
  apply Qle_trans with (inject_Z (N * 2 ^ k) * pow2 (- k)).
  - rewrite inject_Z_mult, <- pow2_int by exact Hk.
    rewrite <- Qmult_assoc, pow2_cancel, Qmult_1_r. apply Qle_refl.
  - apply Qmult_le_compat_r; [| apply Qlt_le_weak, pow2_pos].
    rewrite <- Zle_Qle. exact Hr.
Qed.

Lemma rnd_compat (x y : Q) : x == y -> rnd x = rnd y.
Proof. intros H. unfold rnd. rewrite (Qred_complete x y H). reflexivity. Qed.

Lemma rnd_pos_nonneg (x : Q) : 0 < x -> 0 <= rnd_pos x.
Proof.
  intros Hx. unfold rnd_pos. rewrite Qred_correct.
  apply Qmult_le_0_compat; [| apply Qlt_le_weak, pow2_pos].
  change 0 with (inject_Z 0). rewrite <- Zle_Qle. apply rhe_ge.
  apply Qmult_le_0_compat; apply Qlt_le_weak; [exact Hx | apply pow2_pos].
Qed.

Lemma rnd_nonneg (x : Q) : 0 <= x -> 0 <= rnd x.
Proof.
  intros Hx. unfold rnd.
  pose proof (Qred_correct x) as Hr.
  destruct (Qcompare_spec (Qred x) 0) as [E | L | G].
  - apply Qle_refl.
  - rewrite Hr in L. exfalso. apply (Qlt_not_le _ _ L Hx).
  - apply rnd_pos_nonneg. exact G.
Qed.

Lemma rnd_le_int (x : Q) (N : Z) :
  0 <= x -> x <= inject_Z N -> (N < 2 ^ 53)%Z -> rnd x <= inject_Z N.
Proof.
  intros Hx HN H53. unfold rnd.
  pose proof (Qred_correct x) as Hr.
  destruct (Qcompare_spec (Qred x) 0) as [E | L | G].
  - apply Qle_trans with x; assumption.
  - rewrite Hr in L. exfalso. apply (Qlt_not_le _ _ L Hx).
  - apply rnd_pos_le_int; [exact G | rewrite Hr; exact HN | exact H53].
Qed.

Lemma rnd_ge_int (x : Q) (N : Z) :
  (0 <= N)%Z -> inject_Z N <= x -> x < pow2 53 -> inject_Z N <= rnd x.
Proof.
  intros H0 HN H53. unfold rnd.
  pose proof (Qred_correct x) as Hr.
  assert (Hx : 0 <= x).
  { apply Qle_trans with (inject_Z N); [| exact HN].
    change 0 with (inject_Z 0). rewrite <- Zle_Qle. exact H0. }
  destruct (Qcompare_spec (Qred x) 0) as [E | L | G].
  - rewrite Hr in E. rewrite <- E. exact HN.
  - rewrite Hr in L. exfalso. apply (Qlt_not_le _ _ L Hx).
  - apply rnd_pos_ge_int; [exact G | rewrite Hr; exact HN | rewrite Hr; exact H53].
Qed.

(** Whole numbers below [2^53] are floats. *)
Lemma of_int_exact (n : Z) : (0 <= n < 2 ^ 53)%Z -> of_int n == inject_Z n.
Proof.
  intros [H0 H53]. unfold of_int. apply Qle_antisym.
  - apply rnd_le_int; [| apply Qle_refl | exact H53].
    change 0 with (inject_Z 0). rewrite <- Zle_Qle. exact H0.
  - apply rnd_ge_int; [exact H0 | apply Qle_refl |].
    rewrite pow2_int by lia. rewrite <- Zlt_Qlt. exact H53.
Qed.

Lemma round_bounds (x : float) (ndigits : nat) (N : Z) :
  0 <= x -> x <= inject_Z N -> (N < 2 ^ 53)%Z ->
  0 <= round x ndigits /\ round x ndigits <= inject_Z N.
Proof.
  intros Hx HN H53. unfold round.
  set (P := (10 ^ Z.of_nat ndigits)%Z).
  assert (HP : (0 < P)%Z) by (apply Z.pow_pos_nonneg; lia).
  assert (HPq : 0 < inject_Z P).
  { change 0 with (inject_Z 0). rewrite <- Zlt_Qlt. exact HP. }
  assert (Hlo : (0 <= rhe (x * inject_Z P))%Z).
  { apply rhe_ge. apply Qmult_le_0_compat; [exact Hx | apply Qlt_le_weak, HPq]. }
  assert (Hhi : (rhe (x * inject_Z P) <= N * P)%Z).
  { apply rhe_le. rewrite inject_Z_mult.
    apply Qmult_le_compat_r; [exact HN | apply Qlt_le_weak, HPq]. }
  assert (Hq0 : 0 <= inject_Z (rhe (x * inject_Z P)) / inject_Z P).
  { apply Qle_shift_div_l; [exact HPq |]. rewrite Qmult_0_l.
    change 0 with (inject_Z 0). rewrite <- Zle_Qle. exact Hlo. }
  split.
  - apply rnd_nonneg. exact Hq0.
  - apply rnd_le_int; [exact Hq0 | | exact H53].
    apply Qle_shift_div_r; [exact HPq |].
    rewrite <- inject_Z_mult, <- Zle_Qle. exact Hhi.
Qed.

Lemma int_truediv_bounds (a b N : Z) :
  (0 <= a)%Z -> (0 < b)%Z -> (a <= N * b)%Z -> (N < 2 ^ 53)%Z ->
  0 <= int_truediv a b /\ int_truediv a b <= inject_Z N.
Proof.
  intros Ha Hb Hab H53. unfold int_truediv.
  assert (Hbq : 0 < inject_Z b).
  { change 0 with (inject_Z 0). rewrite <- Zlt_Qlt. exact Hb. }
  assert (Hq0 : 0 <= inject_Z a / inject_Z b).
  { apply Qle_shift_div_l; [exact Hbq |]. rewrite Qmult_0_l.
    change 0 with (inject_Z 0). rewrite <- Zle_Qle. exact Ha. }
  split.
  - apply rnd_nonneg. exact Hq0.
  - apply rnd_le_int; [exact Hq0 | | exact H53].
    apply Qle_shift_div_r; [exact Hbq |].
    rewrite <- inject_Z_mult, <- Zle_Qle. exact Hab.
Qed.

Lemma add_bounds (x y : float) (M N : Z) :
  0 <= x -> x <= inject_Z M -> 0 <= y -> y <= inject_Z N ->
  (M + N < 2 ^ 53)%Z ->
  0 <= add x y /\ add x y <= inject_Z (M + N).
Proof.
  intros Hx HM Hy HN H53. unfold add. split.
  - apply rnd_nonneg. lra.
  - apply rnd_le_int; [lra | rewrite inject_Z_plus; lra | exact H53].
Qed.

Lemma div_int_bounds (x : float) (n N : Z) :
  0 <= x -> (0 < n < 2 ^ 53)%Z -> x <= inject_Z (N * n) -> (N < 2 ^ 53)%Z ->
  0 <= div_int x n /\ div_int x n <= inject_Z N.
Proof.
  intros Hx [Hn Hn53] HN H53. unfold div_int.
  assert (Hof : of_int n == inject_Z n) by (apply of_int_exact; lia).
  assert (Hnq : 0 < inject_Z n).
  { change 0 with (inject_Z 0). rewrite <- Zlt_Qlt. exact Hn. }
  assert (Hq0 : 0 <= x / of_int n).
  { rewrite Hof. apply Qle_shift_div_l; [exact Hnq |]. rewrite Qmult_0_l. exact Hx. }
  split.
  - apply rnd_nonneg. exact Hq0.
  - apply rnd_le_int; [exact Hq0 | | exact H53].
    rewrite Hof. apply Qle_shift_div_r; [exact Hnq |].
    rewrite <- inject_Z_mult. exact HN.
Qed.
(** The operations agree with binary64 arithmetic as the Standard
    Library specifies it ([SFdiv], [SFadd] at precision 53 and
    maximal exponent 1024), here on a coverage of one keyword out of
    three, on its rounding to two decimal places, and on a sum and a
    mean of such scores. *)
Example int_truediv_binary64 :
  of_spec_float (SFdiv 53 1024 (b64 100) (b64 3)) = Some (int_truediv 100 3) /\
  of_spec_float (SFdiv 53 1024 (b64 100) (b64 4000)) = Some (int_truediv 100 4000).
Proof. split; vm_compute; reflexivity. Qed.

Example round_binary64 :
  of_spec_float (SFdiv 53 1024 (b64 3333) (b64 100))
  = Some (round (int_truediv 100 3) 2) /\
  of_spec_float (SFdiv 53 1024 (b64 3) (b64 100))
  = Some (round (int_truediv 100 4000) 2).
Proof. split; vm_compute; reflexivity. Qed.

Example add_div_binary64 :
  let x := SFdiv 53 1024 (b64 3333) (b64 100) in
  let y := SFdiv 53 1024 (b64 6667) (b64 100) in
  of_spec_float (SFadd 53 1024 x y) = Some (add (lit 3333 100) (lit 6667 100)) /\
  of_spec_float (SFdiv 53 1024 (SFadd 53 1024 x y) (b64 3))
  = Some (div_int (add (lit 3333 100) (lit 6667 100)) 3).
Proof. split; vm_compute; reflexivity. Qed.

End PyFloatFacts.

(* ================================================================== *)
(** * Facts on strings *)
(* ================================================================== *)

Module PyStrFacts.
Import PyStr.

Lemma prefix_spec (p s : string) :
  String.prefix p s = true <-> exists post, s = p ++ post.
Proof.
  revert s. induction p as [| c p IH]; intros s; simpl.
  - split; [intros _; exists s; reflexivity | intros _; destruct s; reflexivity].
  - destruct s as [| d s]; simpl.
    + split; [discriminate | intros [post H]; discriminate].
    + destruct (Ascii.ascii_dec c d) as [-> | NE].
      * rewrite IH. split; intros [post H]; exists post; congruence.
      * split; [discriminate | intros [post H]; congruence].
Qed.

(** [contains] decides the occurrence of a substring. *)
Lemma contains_spec (s sub : string) :
  contains s sub = true <-> Spec.substring sub s.
Proof.
  unfold Spec.substring. induction s as [| c s IH].
  - cbn [contains]. rewrite orb_false_r, prefix_spec. split.
    + intros [post H]. exists EmptyString, post. exact H.
    + intros ([| d pre] & post & H); simpl in H; [exists post; exact H | discriminate].
  - cbn [contains]. rewrite orb_true_iff, prefix_spec, IH. split.
    + intros [[post H] | (pre & post & H)].
      * exists EmptyString, post. exact H.
      * exists (String c pre), post. simpl. congruence.
    + intros ([| d pre] & post & H); simpl in H.
      * left. exists post. exact H.
      * right. exists pre, post. congruence.
Qed.

Lemma isspace_lower_char (c : ascii) : isspace (lower_char c) = isspace c.
Proof. destruct c as [[] [] [] [] [] [] [] []]; reflexivity. Qed.

Lemma lower_app (a b : string) : lower (a ++ b) = lower a ++ lower b.
Proof. induction a as [| c a IH]; simpl; congruence. Qed.

Lemma flush_lower (cur : string) (rest : list string) :
  flush (lower cur) (map lower rest) = map lower (flush cur rest).
Proof. destruct cur; reflexivity. Qed.

Lemma split_from_lower (s cur : string) :
  split_from (lower cur) (lower s) = map lower (split_from cur s).
Proof.
  revert cur. induction s as [| c s IH]; intros cur; simpl.
  - apply (flush_lower cur []).
  - rewrite isspace_lower_char. destruct (isspace c).
    + rewrite <- flush_lower. f_equal. apply (IH EmptyString).
    + rewrite <- IH, lower_app. reflexivity.
Qed.

(** Lower-casing an answer keeps its words apart: the words of the
    lower-cased answer are the lower-cased words. *)
Lemma split_lower (s : string) : split (lower s) = map lower (split s).
Proof. apply (split_from_lower s EmptyString). Qed.

Lemma word_count_lower (s : string) :
  Spec.word_count (lower s) = Spec.word_count s.
Proof. unfold Spec.word_count. rewrite split_lower. apply length_map. Qed.

End PyStrFacts.

(* ================================================================== *)
(** * Facts on the evaluation *)
(* ================================================================== *)

Lemma py_sum_ones {A : Type} (l : list A) :
  py_sum (map (fun _ => 1) l) = Z.of_nat (List.length l).
Proof.
  unfold py_sum.
  assert (H : forall z, fold_left Z.add (map (fun _ : A => 1) l) z
                        = z + Z.of_nat (List.length l)).
  { induction l as [| x l IH]; intros z; simpl List.length; simpl fold_left.
    - lia.
    - rewrite IH. lia. }
  rewrite H. lia.
Qed.

Lemma covered_found (keywords : list string) (a : string) :
  covered keywords (PyStr.lower a) = Z.of_nat (List.length (Spec.found keywords a)).
Proof. unfold covered. rewrite py_sum_ones. reflexivity. Qed.

Lemma missing_not_found (keywords : list string) (a : string) :
  missing keywords (PyStr.lower a) = Spec.not_found keywords a.
Proof. reflexivity. Qed.

(** The score computed by the loop is the score of the
    specification. *)
Lemma score_of_spec (q : Question) (a : string) :
  score_of q (PyStr.lower a) = Spec.question_score q a.
Proof.
  unfold score_of, Spec.question_score.
  destruct (q_keywords q) as [| k ks] eqn:E.
  - unfold len. fold (Spec.word_count (PyStr.lower a)).
    rewrite PyStrFacts.word_count_lower.
    destruct (Nat.ltb_spec 5 (Spec.word_count a)) as [H | H].
    + replace (Z.of_nat (Spec.word_count a) >? 5) with true; [reflexivity |].
      symmetry. apply Z.gtb_lt. lia.
    + replace (Z.of_nat (Spec.word_count a) >? 5) with false; [reflexivity |].
      symmetry. rewrite Z.gtb_ltb. apply Z.ltb_ge. lia.
  - rewrite covered_found. reflexivity.
Qed.

Lemma feedback_of_spec (q : Question) (a : string) :
  feedback_of (score_of q (PyStr.lower a)) (missing (q_keywords q) (PyStr.lower a))
  = Spec.question_feedback q a.
Proof.
  unfold feedback_of, Spec.question_feedback.
  rewrite score_of_spec, missing_not_found.
  destruct (Spec.not_found (q_keywords q) a); reflexivity.
Qed.

(** The scoring loop on [Question]s, one answer left per question:
    every iteration appends the score and the feedback of its question
    and adds the score to the total. *)
Lemma score_loop_models (qs : list Question) :
  forall (done rest : list string) (acc : Acc),
    List.length rest = List.length qs ->
    score_loop (done ++ rest) (List.length done) (map QModel qs) acc =
    let pairs := combine qs rest in
    let scores := map (fun qa => Spec.question_score (fst qa) (snd qa)) pairs in
    Ok (mkAcc (per_scores acc ++ scores)
              (per_feedback acc
                 ++ map (fun qa => Spec.question_feedback (fst qa) (snd qa)) pairs)
              (fold_left PyFloat.add scores (total acc))).
Proof.
  induction qs as [| q qs IH]; intros done rest acc Hlen.
  - simpl. rewrite !app_nil_r. destruct acc; reflexivity.
  - destruct rest as [| a rest]; [discriminate |].
    cbn [map score_loop]. unfold score_step.
    rewrite nth_error_app2 by lia. rewrite Nat.sub_diag. cbn [nth_error bind].
    rewrite feedback_of_spec, score_of_spec.
    replace (done ++ a :: rest)%list with ((done ++ [a]) ++ rest)%list
      by (rewrite <- app_assoc; reflexivity).
    replace (S (List.length done)) with (List.length (done ++ [a])%list)
      by (rewrite length_app; simpl; lia).
    rewrite IH by (simpl in Hlen; lia).
    cbn [per_scores per_feedback total combine map fold_left fst snd].
    rewrite <- !app_assoc. reflexivity.
Qed.

(** The scoring loop ends normally only on [Question]s. *)
Lemma score_loop_ok_models (answers : list string) (q_models : list q_model) :
  forall (i : nat) (acc acc' : Acc),
    score_loop answers i q_models acc = Ok acc' ->
    exists qs, q_models = map QModel qs.
Proof.
  induction q_models as [| m ms IH]; intros i acc acc' H.
  - exists []. reflexivity.
  - cbn [score_loop] in H. unfold score_step in H.
    destruct (nth_error answers i) as [a |]; [| discriminate].
    destruct m as [q | v]; [| discriminate].
    cbn [bind] in H. apply IH in H. destruct H as [qs ->].
    exists (q :: qs). reflexivity.
Qed.

Lemma len_eqb {A B : Type} (l : list A) (l' : list B) :
  (len l =? len l') = true <-> List.length l = List.length l'.
Proof. unfold len. rewrite Z.eqb_eq. lia. Qed.

Lemma average_total_score (qs : list Question) (answers : list string) :
  List.length answers = List.length qs ->
  let scores := map (fun qa => Spec.question_score (fst qa) (snd qa))
                    (combine qs answers) in
  average (fold_left PyFloat.add scores (PyFloat.lit 0 1)) (map QModel qs)
  = Spec.total_score scores.
Proof.
  intros Hlen scores.
  assert (Hl : len (map QModel qs) = len scores).
  { unfold len, scores. rewrite !length_map, length_combine. lia. }
  unfold average, Spec.total_score, Spec.mean, Spec.float_sum.
  destruct qs as [| q qs]; [reflexivity |].
  destruct answers as [| a answers]; [discriminate |].
  cbn [map combine] in *. rewrite Hl. reflexivity.
Qed.

(** The second part of the handler on [Question]s with as many
    answers: the evaluation of the specification. *)
Lemma score_answers_models (req : EvaluateRequest) (qs : list Question) :
  List.length (er_answers req) = List.length qs ->
  score_answers req (map QModel qs) = Ok (Spec.evaluation_of req qs).
Proof.
  intros Hlen. unfold score_answers.
  replace (len (er_answers req) =? len (map QModel qs)) with true
    by (symmetry; apply len_eqb; rewrite length_map; exact Hlen).
  cbn [negb].
  pose proof (score_loop_models qs [] (er_answers req)
                (mkAcc [] [] (PyFloat.lit 0 1)) Hlen) as H.
  cbn [app List.length] in H. rewrite H. cbn [bind per_scores per_feedback total app].
  rewrite (average_total_score qs (er_answers req) Hlen). reflexivity.
Qed.

(** The second part of the handler returns an [Evaluation] only on
    [Question]s with as many answers. *)
Lemma score_answers_ok (req : EvaluateRequest) (q_models : list q_model) (ev : Evaluation) :
  score_answers req q_models = Ok ev ->
  exists qs, q_models = map QModel qs /\
             List.length (er_answers req) = List.length qs /\
             ev = Spec.evaluation_of req qs.
Proof.
  intros H. pose proof H as H'. unfold score_answers in H.
  destruct (len (er_answers req) =? len q_models) eqn:E; [| discriminate].
  cbn [negb] in H.
  destruct (score_loop (er_answers req) 0 q_models _) as [acc | |] eqn:L;
    [| discriminate | discriminate].
  apply score_loop_ok_models in L. destruct L as [qs ->].
  apply len_eqb in E. rewrite length_map in E.
  exists qs. split; [reflexivity | split; [exact E |]].
  rewrite (score_answers_models req qs E) in H'. congruence.
Qed.

(** The handler on an interview whose stored questions convert into
    the [Question]s [qs], with as many answers: the evaluation is
    written, whatever the outcome of the write, and returned. *)
Lemma evaluate_answers_ok (st : Store) (req : EvaluateRequest) (qs : list Question) :
  load_questions st (er_interview_id req) = Ok (map QModel qs) ->
  List.length (er_answers req) = List.length qs ->
  evaluate_answers st req =
  (fst (create_document st "evaluation" (dump_evaluation (Spec.evaluation_of req qs))),
   Ok (Spec.evaluation_of req qs)).
Proof.
  intros Hload Hlen. unfold evaluate_answers.
  rewrite Hload, (score_answers_models req qs Hlen).
  destruct (create_document st "evaluation" _) as [st' r]. reflexivity.
Qed.

(** The handler returns an [Evaluation] only in that case. *)
Lemma evaluate_answers_ok_inv (st st' : Store) (req : EvaluateRequest) (ev : Evaluation) :
  evaluate_answers st req = (st', Ok ev) ->
  exists qs, load_questions st (er_interview_id req) = Ok (map QModel qs) /\
             List.length (er_answers req) = List.length qs /\
             ev = Spec.evaluation_of req qs.
Proof.
  unfold evaluate_answers. intros H.
  destruct (load_questions st (er_interview_id req)) as [q_models | |] eqn:L;
    [| discriminate | discriminate].
  destruct (score_answers req q_models) as [ev' | |] eqn:S;
    [| discriminate | discriminate].
  destruct (create_document st "evaluation" _) as [st'' r].
  injection H as _ <-.
  apply score_answers_ok in S. destruct S as (qs & -> & Hlen & ->).
  exists qs. auto.
Qed.

(** The interview built for a request always passes the validation
    of [Interview]. *)
Lemma bank_length (role : string) : List.length (Spec.bank (infer_track role)) = 5%nat.
Proof.
  unfold infer_track.
  destruct (_ || _); [reflexivity |]. destruct (_ || _); reflexivity.
Qed.

Lemma select_questions_bank (track : string) (n : Z) :
  select_questions track n
  = firstn (Z.to_nat (Spec.clamp n 1 10)) (Spec.bank track).
Proof.
  unfold select_questions, slice_to, Spec.bank, Spec.clamp.
  rewrite firstn_map. do 2 f_equal.
  destruct (Z.ltb_spec n 1); [lia |]. destruct (Z.ltb_spec 10 n); lia.
Qed.

Lemma clamp_bounds (n lo hi : Z) : lo <= hi -> lo <= Spec.clamp n lo hi <= hi.
Proof.
  intros H. unfold Spec.clamp.
  destruct (Z.ltb_spec n lo); [lia |]. destruct (Z.ltb_spec hi n); lia.
Qed.

Lemma select_questions_length (role : string) (n : Z) :
  List.length (select_questions (infer_track role) n)
  = Nat.min (Z.to_nat (Spec.clamp n 1 10)) 5.
Proof. rewrite select_questions_bank, length_firstn, bank_length. reflexivity. Qed.

Lemma build_interview_ok (req : InterviewRequest) :
  build_interview req =
  let questions := select_questions (infer_track (ir_role req)) (ir_num_questions req) in
  Ok (mkInterview
        (str_or (ir_role req)
                (dict_get_default ROLE_DEFAULT (infer_track (ir_role req)) (ir_role req)))
        (opt_str_or (ir_description req) ("Interview for " ++ ir_role req))
        (ir_level req) (len questions) questions).
Proof.
  unfold build_interview, new_Interview. cbv zeta.
  set (questions := select_questions _ _).
  assert (H : 1 <= len questions <= 5).
  { unfold len, questions. rewrite select_questions_length.
    pose proof (clamp_bounds (ir_num_questions req) 1 10). lia. }
  destruct (Z.leb_spec 1 (len questions)); [| lia].
  destruct (Z.leb_spec (len questions) 15); [| lia].
  reflexivity.
Qed.

Lemma nth_error_combine {A B : Type} (l : list A) (l' : list B) :
  forall (i : nat) (x : A) (y : B),
    nth_error l i = Some x -> nth_error l' i = Some y ->
    nth_error (combine l l') i = Some (x, y).
Proof.
  revert l'. induction l as [| a l IH]; intros l' i x y Hx Hy.
  - destruct i; discriminate.
  - destruct l' as [| b l']; [destruct i; discriminate |].
    destruct i as [| i]; simpl in *.
    + congruence.
    + apply IH; assumption.
Qed.

(** The score and the feedback that an evaluation holds at an index
    are those of the question and of the answer at that index. *)
Lemma evaluation_of_nth (req : EvaluateRequest) (qs : list Question)
    (i : nat) (q : Question) (a : string) :
  nth_error qs i = Some q -> nth_error (er_answers req) i = Some a ->
  nth_error (e_per_question_scores (Spec.evaluation_of req qs)) i
    = Some (Spec.question_score q a) /\
  nth_error (e_per_question_feedback (Spec.evaluation_of req qs)) i
    = Some (Spec.question_feedback q a).
Proof.
  intros Hq Ha. unfold Spec.evaluation_of. cbn [e_per_question_scores e_per_question_feedback].
  pose proof (nth_error_combine qs (er_answers req) i q a Hq Ha) as H.
  split.
  - apply (map_nth_error (fun qa => Spec.question_score (fst qa) (snd qa)) _ _ H).
  - apply (map_nth_error (fun qa => Spec.question_feedback (fst qa) (snd qa)) _ _ H).
Qed.

(* ================================================================== *)
(** * The claims *)
(* ================================================================== *)

(** C1.  In every evaluation that the handler returns, the score of a
    question with a non-empty keyword list is
    [round(100 * c / n, 2)], [n] being the number of its keywords and
    [c] the number of those that occur in the answer as
    case-insensitive substrings, and the score of a question without
    keywords is 50.0 if the answer has more than 5
    whitespace-separated words and 20.0 otherwise.  For the keywords
    atomicity, consistency, isolation, durability and the answer
    "The database guarantees atomicity and consistency" the loop
    computes the score 50.0 and the feedback
    "Missing: isolation, durability". *)
Theorem C1_question_score :
  (forall (st st' : Store) (req : EvaluateRequest) (ev : Evaluation),
      evaluate_answers st req = (st', Ok ev) ->
      exists qs : list Question,
        load_questions st (er_interview_id req) = Ok (map QModel qs) /\
        forall (i : nat) (q : Question) (a : string),
          nth_error qs i = Some q ->
          nth_error (er_answers req) i = Some a ->
          let n := Z.of_nat (List.length (q_keywords q)) in
          let c := Z.of_nat (List.length (Spec.found (q_keywords q) a)) in
          (q_keywords q <> [] ->
           nth_error (e_per_question_scores ev) i
           = Some (PyFloat.round (PyFloat.int_truediv (100 * c) n) 2)) /\
          (q_keywords q = [] ->
           nth_error (e_per_question_scores ev) i
           = Some (if (5 <? Spec.word_count a)%nat
                   then PyFloat.lit 50 1 else PyFloat.lit 20 1)))
  /\
  (forall text : string,
      let q := mkQuestion text ["atomicity"; "consistency"; "isolation"; "durability"] in
      let ans := PyStr.lower "The database guarantees atomicity and consistency" in
      score_of q ans = PyFloat.lit 50 1 /\
      feedback_of (score_of q ans) (missing (q_keywords q) ans)
      = "Missing: isolation, durability").
Proof.
  split.
  - intros st st' req ev H.
    destruct (evaluate_answers_ok_inv st st' req ev H) as (qs & Hload & Hlen & ->).
    exists qs. split; [exact Hload |].
    intros i q a Hq Ha n c.
    destruct (evaluation_of_nth req qs i q a Hq Ha) as [Hs _].
    rewrite Hs. unfold Spec.question_score, n, c.
    split; intros Hk.
    + destruct (q_keywords q); [contradiction | reflexivity].
    + rewrite Hk. reflexivity.
  - intros text. split; vm_compute; reflexivity.
Qed.

Lemma C1_question_score_witness :
  evaluate_answers Sample.store Sample.request
  = (fst (evaluate_answers Sample.store Sample.request), Ok Sample.evaluation) /\
  exists qs : list Question,
    load_questions Sample.store "65f1c0ffee" = Ok (map QModel qs) /\
    forall (i : nat) (q : Question) (a : string),
      nth_error qs i = Some q ->
      nth_error (er_answers Sample.request) i = Some a ->
      (q_keywords q <> [] ->
       nth_error (e_per_question_scores Sample.evaluation) i
       = Some (PyFloat.round
                 (PyFloat.int_truediv
                    (100 * Z.of_nat (List.length (Spec.found (q_keywords q) a)))
                    (Z.of_nat (List.length (q_keywords q)))) 2)) /\
      (q_keywords q = [] ->
       nth_error (e_per_question_scores Sample.evaluation) i
       = Some (if (5 <? Spec.word_count a)%nat
               then PyFloat.lit 50 1 else PyFloat.lit 20 1)).
Proof.
  split.
  - vm_compute. reflexivity.
  - apply (proj1 C1_question_score Sample.store
             (fst (evaluate_answers Sample.store Sample.request))
             Sample.request Sample.evaluation).
    vm_compute. reflexivity.
Defined.

Lemma gt_int_spec (x : PyFloat.float) (n : Z) :
  PyFloat.gt_int x n = true <-> (inject_Z n < x)%Q.
Proof.
  unfold PyFloat.gt_int. rewrite negb_true_iff. split.
  - intros H. apply Qnot_le_lt. intros L. apply Qle_bool_iff in L. congruence.
  - intros H. destruct (Qle_bool x (inject_Z n)) eqn:E; [| reflexivity].
    apply Qle_bool_iff in E. exfalso. apply (Qlt_not_le _ _ H E).
Qed.

Lemma filter_negb_nil {A : Type} (f : A -> bool) (l : list A) :
  filter (fun x => negb (f x)) l = [] -> filter f l = l.
Proof.
  induction l as [| x l IH]; simpl; [reflexivity |].
  destruct (f x); simpl; [| discriminate].
  intros H. f_equal. exact (IH H).
Qed.

(** A question all of whose keywords are found scores 100.0. *)
Lemma question_score_full (q : Question) (a : string) :
  q_keywords q <> [] -> Spec.not_found (q_keywords q) a = [] ->
  Spec.question_score q a = PyFloat.lit 100 1.
Proof.
  intros Hk Hn. unfold Spec.question_score, Spec.found.
  rewrite (filter_negb_nil _ _ Hn).
  destruct (q_keywords q) as [| k ks]; [contradiction |].
  set (n := Z.of_nat (List.length (k :: ks))).
  assert (Hn0 : 0 < n) by (unfold n; simpl List.length; lia).
  unfold PyFloat.int_truediv.
  rewrite (PyFloatFacts.rnd_compat _ (inject_Z 100)).
  - vm_compute. reflexivity.
  - rewrite inject_Z_mult. field.
    intros E. unfold Qeq in E. simpl in E. lia.
Qed.

(** A question without keywords scores 20.0 or 50.0, and no more than
    70. *)
Lemma question_score_no_keyword (q : Question) (a : string) :
  q_keywords q = [] ->
  (Spec.question_score q a = PyFloat.lit 20 1 \/
   Spec.question_score q a = PyFloat.lit 50 1) /\
  PyFloat.gt_int (Spec.question_score q a) 70 = false.
Proof.
  intros Hk. unfold Spec.question_score. rewrite Hk.
  destruct (5 <? Spec.word_count a)%nat; split; auto.
Qed.

(** The last branch of the feedback is taken on the questions without
    keywords, and on them only. *)
Lemma feedback_more_specific (q : Question) (a : string) :
  Spec.question_feedback q a = "Could be more specific." <-> q_keywords q = [].
Proof.
  unfold Spec.question_feedback. split.
  - destruct (PyFloat.gt_int (Spec.question_score q a) 70) eqn:G; [discriminate |].
    destruct (Spec.not_found (q_keywords q) a) as [| k ks] eqn:N; [| discriminate].
    intros _. destruct (q_keywords q) as [| k ks] eqn:K; [reflexivity |].
    assert (Hk : q_keywords q <> []) by (rewrite K; discriminate).
    rewrite <- K in N.
    rewrite (question_score_full q a Hk N) in G. discriminate.
  - intros Hk.
    destruct (question_score_no_keyword q a Hk) as [_ ->].
    unfold Spec.not_found. rewrite Hk. reflexivity.
Qed.

(** C2, as the code has it.  In every evaluation that the handler
    returns, the feedback of a question is "Good coverage." when its
    score is strictly greater than 70; otherwise it is "Missing: "
    followed by the keywords not found in the answer as
    case-insensitive substrings, in the order of the keyword list and
    joined by ", ", when at least one is not found; otherwise it is
    "Could be more specific.".  This last feedback is given exactly to
    the questions whose keyword list is empty, whose score is 20.0 or
    50.0. *)
Theorem C2_feedback :
  forall (st st' : Store) (req : EvaluateRequest) (ev : Evaluation),
    evaluate_answers st req = (st', Ok ev) ->
    exists qs : list Question,
      load_questions st (er_interview_id req) = Ok (map QModel qs) /\
      forall (i : nat) (q : Question) (a : string),
        nth_error qs i = Some q ->
        nth_error (er_answers req) i = Some a ->
        exists (s : PyFloat.float) (fb : string),
          nth_error (e_per_question_scores ev) i = Some s /\
          nth_error (e_per_question_feedback ev) i = Some fb /\
          ((70 < s)%Q -> fb = "Good coverage.") /\
          (~ (70 < s)%Q -> Spec.not_found (q_keywords q) a <> [] ->
           fb = "Missing: " ++ PyStr.join ", " (Spec.not_found (q_keywords q) a)) /\
          (~ (70 < s)%Q -> Spec.not_found (q_keywords q) a = [] ->
           fb = "Could be more specific.") /\
          (fb = "Could be more specific." <-> q_keywords q = []) /\
          (q_keywords q = [] -> s = PyFloat.lit 20 1 \/ s = PyFloat.lit 50 1).
Proof.
  intros st st' req ev H.
  destruct (evaluate_answers_ok_inv st st' req ev H) as (qs & Hload & Hlen & ->).
  exists qs. split; [exact Hload |].
  intros i q a Hq Ha.
  destruct (evaluation_of_nth req qs i q a Hq Ha) as [Hs Hf].
  exists (Spec.question_score q a), (Spec.question_feedback q a).
  split; [exact Hs |]. split; [exact Hf |].
  repeat split.
  - intros G. apply (gt_int_spec _ 70) in G.
    unfold Spec.question_feedback. rewrite G. reflexivity.
  - intros G N. unfold Spec.question_feedback.
    destruct (PyFloat.gt_int (Spec.question_score q a) 70) eqn:E.
    + apply gt_int_spec in E. contradiction.
    + destruct (Spec.not_found (q_keywords q) a); [contradiction | reflexivity].
  - intros G N. unfold Spec.question_feedback.
    destruct (PyFloat.gt_int (Spec.question_score q a) 70) eqn:E.
    + apply gt_int_spec in E. contradiction.
    + rewrite N. reflexivity.
  - apply feedback_more_specific.
  - apply feedback_more_specific.
  - intros Hk. apply (question_score_no_keyword q a Hk).
Qed.

Lemma C2_feedback_witness :
  evaluate_answers Sample.store Sample.request
  = (fst (evaluate_answers Sample.store Sample.request), Ok Sample.evaluation) /\
  exists qs : list Question,
    load_questions Sample.store "65f1c0ffee" = Ok (map QModel qs) /\
    forall (i : nat) (q : Question) (a : string),
      nth_error qs i = Some q ->
      nth_error (er_answers Sample.request) i = Some a ->
      exists (s : PyFloat.float) (fb : string),
        nth_error (e_per_question_scores Sample.evaluation) i = Some s /\
        nth_error (e_per_question_feedback Sample.evaluation) i = Some fb /\
        ((70 < s)%Q -> fb = "Good coverage.") /\
        (~ (70 < s)%Q -> Spec.not_found (q_keywords q) a <> [] ->
         fb = "Missing: " ++ PyStr.join ", " (Spec.not_found (q_keywords q) a)) /\
        (~ (70 < s)%Q -> Spec.not_found (q_keywords q) a = [] ->
         fb = "Could be more specific.") /\
        (fb = "Could be more specific." <-> q_keywords q = []) /\
        (q_keywords q = [] -> s = PyFloat.lit 20 1 \/ s = PyFloat.lit 50 1).
Proof.
  split.
  - vm_compute. reflexivity.
  - apply (C2_feedback Sample.store
             (fst (evaluate_answers Sample.store Sample.request))
             Sample.request Sample.evaluation).
    vm_compute. reflexivity.
Defined.

(** C2, as it is stated, fails: the second question of the sample
    interview has no keyword and its answer has eight words; the
    handler gives it the score 50.0, not 20.0, and the feedback
    "Could be more specific.". *)
Lemma C2_counterexample :
  ~ (forall (st st' : Store) (req : EvaluateRequest) (ev : Evaluation)
            (i : nat) (s : PyFloat.float),
        evaluate_answers st req = (st', Ok ev) ->
        nth_error (e_per_question_feedback ev) i = Some "Could be more specific." ->
        nth_error (e_per_question_scores ev) i = Some s ->
        s = PyFloat.lit 20 1).
Proof.
  intros H.
  specialize (H Sample.store (fst (evaluate_answers Sample.store Sample.request))
                Sample.request Sample.evaluation 1%nat (PyFloat.lit 50 1)).
  assert (E : PyFloat.lit 50 1 = PyFloat.lit 20 1).
  { apply H; vm_compute; reflexivity. }
  vm_compute in E. discriminate E.
Qed.

Lemma ge_int_spec (x : PyFloat.float) (n : Z) :
  PyFloat.ge_int x n = true <-> (inject_Z n <= x)%Q.
Proof. unfold PyFloat.ge_int. apply Qle_bool_iff. Qed.

(** The thresholds of the verdict, the first that is met deciding. *)
Lemma verdict_of_thresholds (t : PyFloat.float) :
  ((75 <= t)%Q -> verdict_of t = "Strong match") /\
  ((50 <= t)%Q -> (t < 75)%Q -> verdict_of t = "Promising but needs work") /\
  ((t < 50)%Q -> verdict_of t = "Below expectations").
Proof.
  unfold verdict_of. split; [| split].
  - intros H. apply (ge_int_spec t 75) in H. rewrite H. reflexivity.
  - intros H50 H75.
    destruct (PyFloat.ge_int t 75) eqn:E.
    + apply ge_int_spec in E. exfalso. apply (Qlt_not_le _ _ H75 E).
    + apply (ge_int_spec t 50) in H50. rewrite H50. reflexivity.
  - intros H.
    destruct (PyFloat.ge_int t 75) eqn:E75.
    { apply ge_int_spec in E75. exfalso.
      apply (Qlt_not_le _ _ H). apply Qle_trans with (inject_Z 75); [| exact E75].
      discriminate. }
    destruct (PyFloat.ge_int t 50) eqn:E50.
    { apply ge_int_spec in E50. exfalso. apply (Qlt_not_le _ _ H E50). }
    reflexivity.
Qed.

(** C3.  In every evaluation that the handler returns, the total
    score is 0.0 when there is no question and otherwise the mean of
    the per-question scores (their sum from left to right, divided by
    their number) rounded to 2 decimal places; the verdict is
    "Strong match" if the total score is at least 75, else
    "Promising but needs work" if it is at least 50, else
    "Below expectations".  So 75.0 gives "Strong match", 74.99 and
    50.0 give "Promising but needs work", and 49.99 gives
    "Below expectations". *)
Theorem C3_total_and_verdict :
  (forall (st st' : Store) (req : EvaluateRequest) (ev : Evaluation),
      evaluate_answers st req = (st', Ok ev) ->
      let scores := e_per_question_scores ev in
      let t := e_total_score ev in
      (scores = [] -> t = PyFloat.lit 0 1) /\
      (scores <> [] -> t = PyFloat.round (Spec.mean scores) 2) /\
      ((75 <= t)%Q -> e_verdict ev = "Strong match") /\
      ((50 <= t)%Q -> (t < 75)%Q -> e_verdict ev = "Promising but needs work") /\
      ((t < 50)%Q -> e_verdict ev = "Below expectations"))
  /\ verdict_of (PyFloat.lit 75 1) = "Strong match"
  /\ verdict_of (PyFloat.lit 7499 100) = "Promising but needs work"
  /\ verdict_of (PyFloat.lit 50 1) = "Promising but needs work"
  /\ verdict_of (PyFloat.lit 4999 100) = "Below expectations".
Proof.
  split; [| repeat split; vm_compute; reflexivity].
  intros st st' req ev H scores t.
  destruct (evaluate_answers_ok_inv st st' req ev H) as (qs & Hload & Hlen & ->).
  unfold scores, t. clear scores t.
  unfold Spec.evaluation_of. cbn [e_per_question_scores e_total_score e_verdict].
  set (scores := map _ (combine qs (er_answers req))).
  split; [| split].
  - intros ->. reflexivity.
  - intros Hne. unfold Spec.total_score.
    destruct scores; [contradiction | reflexivity].
  - apply verdict_of_thresholds.
Qed.

Lemma C3_total_and_verdict_witness :
  evaluate_answers Sample.store Sample.request
  = (fst (evaluate_answers Sample.store Sample.request), Ok Sample.evaluation) /\
  e_total_score Sample.evaluation
  = PyFloat.round (Spec.mean (e_per_question_scores Sample.evaluation)) 2 /\
  e_verdict Sample.evaluation = "Below expectations".
Proof.
  assert (H : evaluate_answers Sample.store Sample.request
              = (fst (evaluate_answers Sample.store Sample.request),
                 Ok Sample.evaluation))
    by (vm_compute; reflexivity).
  split; [exact H |].
  destruct (proj1 C3_total_and_verdict _ _ _ _ H) as (_ & Hmean & _ & _ & Hbelow).
  split.
  - apply Hmean. discriminate.
  - apply Hbelow. vm_compute. reflexivity.
Defined.



Lemma doc_matches_spec (interview_id : string) (d : Document) :
  doc_matches interview_id d = true <->
  doc__id d = interview_id \/ dict_get (doc_fields d) "id" = Some (VStr interview_id).
Proof.
  unfold doc_matches. rewrite orb_true_iff, String.eqb_eq.
  destruct (dict_get (doc_fields d) "id") as [[| | | | s | |] |];
    try (split; [intros [H | H]; [left; exact H | discriminate]
                | intros [H | H]; [left; exact H | discriminate]]).
  rewrite String.eqb_eq. split; intros [H | H]; auto; right; congruence.
Qed.

Lemma find_interview_none (docs : list Document) (interview_id : string) :
  find_interview docs interview_id = None <->
  forall d, In d docs -> doc_matches interview_id d = false.
Proof.
  induction docs as [| x docs IH]; simpl.
  - split; [intros _ d [] | reflexivity].
  - destruct (doc_matches interview_id x) eqn:E.
    + split; [discriminate |]. intros H. specialize (H x (or_introl eq_refl)). congruence.
    + rewrite IH. split.
      * intros H d [<- | Hd]; [exact E | apply H; exact Hd].
      * intros H d Hd. apply H. right. exact Hd.
Qed.

Lemma find_interview_first (pre post : list Document) (d : Document) (interview_id : string) :
  (forall x, In x pre -> doc_matches interview_id x = false) ->
  doc_matches interview_id d = true ->
  find_interview (pre ++ d :: post) interview_id = Some d.
Proof.
  induction pre as [| x pre IH]; intros Hpre Hd; simpl.
  - rewrite Hd. reflexivity.
  - rewrite (Hpre x (or_introl eq_refl)). apply IH; [| exact Hd].
    intros y Hy. apply Hpre. right. exact Hy.
Qed.

Lemma contains_false (s sub : string) :
  PyStr.contains s sub = false <-> ~ Spec.substring sub s.
Proof.
  rewrite <- PyStrFacts.contains_spec. destruct (PyStr.contains s sub); split; intros H.
  - discriminate.
  - exfalso. apply H. reflexivity.
  - discriminate.
  - reflexivity.
Qed.

(** C6.  [infer_track] gives a track to every string: "frontend" when
    the lower-cased string contains "front" or "react"; otherwise
    "backend" when it contains "back" or "api"; otherwise "frontend".
    So "Senior React Developer" is a frontend role,
    "Backend API Engineer" a backend role and "Data Scientist" a
    frontend role. *)
Theorem C6_infer_track :
  (forall role : string,
      let r := PyStr.lower role in
      let front := Spec.substring "front" r \/ Spec.substring "react" r in
      let back := Spec.substring "back" r \/ Spec.substring "api" r in
      (front -> infer_track role = "frontend") /\
      (~ front -> back -> infer_track role = "backend") /\
      (~ front -> ~ back -> infer_track role = "frontend") /\
      (infer_track role = "frontend" \/ infer_track role = "backend"))
  /\ infer_track "Senior React Developer" = "frontend"
  /\ infer_track "Backend API Engineer" = "backend"
  /\ infer_track "Data Scientist" = "frontend".
Proof.
  split; [| repeat split; reflexivity].
  intros role r front back. unfold infer_track. fold r.
  destruct (PyStr.contains r "front") eqn:F1.
  { apply PyStrFacts.contains_spec in F1.
    assert (Hf : front) by (left; exact F1).
    cbn [orb]. repeat split; auto; intros; contradiction. }
  destruct (PyStr.contains r "react") eqn:F2.
  { apply PyStrFacts.contains_spec in F2.
    assert (Hf : front) by (right; exact F2).
    cbn [orb]. repeat split; auto; intros; contradiction. }
  apply contains_false in F1, F2.
  assert (Hnf : ~ front) by (intros [H | H]; contradiction).
  cbn [orb].
  destruct (PyStr.contains r "back") eqn:B1.
  { apply PyStrFacts.contains_spec in B1.
    assert (Hb : back) by (left; exact B1).
    cbn [orb]. repeat split; auto; intros; contradiction. }
  destruct (PyStr.contains r "api") eqn:B2.
  { apply PyStrFacts.contains_spec in B2.
    assert (Hb : back) by (right; exact B2).
    cbn [orb]. repeat split; auto; intros; contradiction. }
  apply contains_false in B1, B2.
  assert (Hnb : ~ back) by (intros [H | H]; contradiction).
  cbn [orb]. repeat split; auto; intros; contradiction.
Qed.

Lemma C6_infer_track_witness :
  Spec.substring "react" (PyStr.lower "Senior React Developer") /\
  infer_track "Senior React Developer" = "frontend".
Proof.
  assert (H : Spec.substring "react" (PyStr.lower "Senior React Developer")).
  { exists "senior ", " developer". reflexivity. }
  split; [exact H |].
  apply (proj1 (proj1 C6_infer_track "Senior React Developer")).
  right. exact H.
Defined.

(** C7.  The questions of the interview built for a request are the
    first [clamp(num_questions, 1, 10)] entries of the bank of the
    inferred track, in the order of the bank, and [num_questions] of
    the interview is their number; the interview stored and returned
    by the handler is that interview.  A request for 0 questions gets
    1 question; a request for 100 questions gets the 5 questions of
    the bank; no request gets more than 10. *)
Theorem C7_question_selection :
  forall (st : Store) (req : InterviewRequest),
    let selection :=
      firstn (Z.to_nat (Spec.clamp (ir_num_questions req) 1 10))
             (Spec.bank (infer_track (ir_role req))) in
    exists interview : Interview,
      build_interview req = Ok interview /\
      i_questions interview = selection /\
      i_num_questions interview = len selection /\
      1 <= len selection <= 10 /\
      len selection <= len (Spec.bank (infer_track (ir_role req))) /\
      len (Spec.bank (infer_track (ir_role req))) = 5 /\
      (ir_num_questions req = 0 -> len selection = 1) /\
      (ir_num_questions req = 100 -> len selection = 5) /\
      (forall st' r, create_interview st req = (st', Ok r) -> fst r = interview) /\
      (write_fault st = None ->
       exists st' interview_id,
         create_interview st req = (st', Ok (interview, interview_id)) /\
         dict_get_default (collections st') "interview" []
         = mkDocument interview_id (dump_interview interview)
             :: dict_get_default (collections st) "interview" []).
Proof.
  intros st req selection.
  pose proof (build_interview_ok req) as Hb. cbv zeta in Hb.
  rewrite select_questions_bank in Hb. fold selection in Hb.
  pose proof (bank_length (ir_role req)) as Hbank.
  pose proof (clamp_bounds (ir_num_questions req) 1 10 ltac:(lia)) as Hc.
  assert (Hlen : List.length selection
                 = Nat.min (Z.to_nat (Spec.clamp (ir_num_questions req) 1 10)) 5).
  { unfold selection. rewrite length_firstn, Hbank. reflexivity. }
  match type of Hb with _ = Ok ?i => set (interview := i) in * end.
  assert (Hq : i_questions interview = selection) by reflexivity.
  assert (Hn : i_num_questions interview = len selection) by reflexivity.
  clearbody interview.
  exists interview. split; [exact Hb |].
  split; [exact Hq |]. split; [exact Hn |].
  unfold len. rewrite Hlen, Hbank.
  split; [lia |]. split; [lia |]. split; [reflexivity |].
  split; [intros E; rewrite E; reflexivity |].
  split; [intros E; rewrite E; reflexivity |].
  split.
  - intros st' r H. unfold create_interview in H. rewrite Hb in H.
    destruct (create_document st "interview" _) as [st'' [oid | e]];
      [| discriminate].
    injection H as _ <-. reflexivity.
  - intros Hw. unfold create_interview. rewrite Hb.
    unfold create_document. rewrite Hw.
    eexists. eexists. split; [reflexivity |].
    cbn [collections]. unfold dict_get_default.
    generalize (collections st). intros c.
    induction c as [| [k v] c IH]; cbn [dict_set dict_get].
    + reflexivity.
    + destruct (String.eqb k "interview") eqn:E; cbn [dict_get]; rewrite E.
      * reflexivity.
      * exact IH.
Qed.

Lemma C7_question_selection_witness :
  ir_num_questions (mkInterviewRequest "React dev" "junior" (Some "") 0) = 0 /\
  len (firstn (Z.to_nat (Spec.clamp 0 1 10)) (Spec.bank (infer_track "React dev"))) = 1.
Proof.
  split; [reflexivity |].
  destruct (C7_question_selection Sample.store
              (mkInterviewRequest "React dev" "junior" (Some "") 0))
    as (i & _ & _ & _ & _ & _ & _ & H0 & _).
  apply H0. reflexivity.
Defined.

Lemma load_questions_write_fault (st : Store) (w : option string) (interview_id : string) :
  load_questions (Spec.with_write_fault st w) interview_id = load_questions st interview_id.
Proof. reflexivity. Qed.

(** C8.  A failure of the storage write is treated differently by the
    two handlers.  [create_interview] raises the HTTP error 500 when
    the write of the interview fails.  [evaluate_answers] returns the
    same outcome whether the write of the evaluation succeeds or
    fails: when the write fails, the computed [Evaluation] is returned
    all the same, and nothing is stored. *)
Theorem C8_storage_error_policy :
  (forall (st : Store) (req : InterviewRequest) (e : string),
      write_fault st = Some e ->
      create_interview st req = (st, HTTPException 500 ("Database error: " ++ e)))
  /\
  (forall (st : Store) (req : EvaluateRequest) (w : option string),
      snd (evaluate_answers (Spec.with_write_fault st w) req)
      = snd (evaluate_answers st req))
  /\
  (forall (st : Store) (req : EvaluateRequest) (qs : list Question) (e : string),
      write_fault st = Some e ->
      load_questions st (er_interview_id req) = Ok (map QModel qs) ->
      List.length (er_answers req) = List.length qs ->
      evaluate_answers st req = (st, Ok (Spec.evaluation_of req qs))).
Proof.
  split; [| split].
  - intros st req e Hw. unfold create_interview.
    rewrite build_interview_ok. cbv zeta.
    unfold create_document. rewrite Hw. reflexivity.
  - intros st req w. unfold evaluate_answers.
    rewrite load_questions_write_fault.
    destruct (load_questions st (er_interview_id req)) as [q_models | |];
      [| reflexivity | reflexivity].
    destruct (score_answers req q_models) as [ev | |]; [| reflexivity | reflexivity].
    destruct (create_document (Spec.with_write_fault st w) _ _).
    destruct (create_document st _ _). reflexivity.
  - intros st req qs e Hw Hload Hlen.
    rewrite (evaluate_answers_ok st req qs Hload Hlen).
    unfold create_document. rewrite Hw. reflexivity.
Qed.

Lemma C8_storage_error_policy_witness :
  create_interview Sample.failing_store Sample.interview_request
  = (Sample.failing_store, HTTPException 500 "Database error: Database not available") /\
  evaluate_answers Sample.failing_store Sample.request
  = (Sample.failing_store, Ok Sample.evaluation).
Proof.
  split.
  - apply (proj1 C8_storage_error_policy Sample.failing_store Sample.interview_request
             "Database not available").
    reflexivity.
  - rewrite (proj2 (proj2 C8_storage_error_policy) Sample.failing_store Sample.request
               Sample.questions "Database not available").
    + vm_compute. reflexivity.
    + reflexivity.
    + vm_compute. reflexivity.
    + reflexivity.
Defined.

(** Every score lies between 0 and 100. *)
Lemma question_score_range (q : Question) (a : string) :
  Spec.in_0_100 (Spec.question_score q a).
Proof.
  unfold Spec.in_0_100, Spec.question_score.
  destruct (q_keywords q) as [| k ks].
  - destruct (5 <? Spec.word_count a)%nat; vm_compute; split; discriminate.
  - set (kws := k :: ks).
    pose proof (filter_length_le (fun k => Spec.ci_substring k a) kws) as Hc.
    fold (Spec.found kws a) in Hc.
    assert (Hn : 0 < Z.of_nat (List.length kws)) by (unfold kws; simpl List.length; lia).
    destruct (PyFloatFacts.int_truediv_bounds
                (100 * Z.of_nat (List.length (Spec.found kws a)))
                (Z.of_nat (List.length kws)) 100) as [H0 H100]; try lia.
    apply (PyFloatFacts.round_bounds _ 2 100 H0 H100). lia.
Qed.

(** The sum of scores between 0 and 100 is at most 100 times their
    number, as long as this bound is a whole number that floats hold
    exactly. *)
Lemma fold_add_bounds (l : list PyFloat.float) :
  forall (acc : PyFloat.float) (M : Z),
    (0 <= acc)%Q -> (acc <= inject_Z M)%Q ->
    Forall Spec.in_0_100 l ->
    M + 100 * len l < 2 ^ 53 ->
    (0 <= fold_left PyFloat.add l acc)%Q /\
    (fold_left PyFloat.add l acc <= inject_Z (M + 100 * len l))%Q.
Proof.
  induction l as [| x l IH]; intros acc M H0 HM Hall Hb.
  - simpl. unfold len. simpl. rewrite Z.add_0_r. split; assumption.
  - inversion Hall as [| ? ? [Hx0 Hx100] Hall']; subst.
    assert (Hlen : len (x :: l) = 1 + len l) by (unfold len; simpl List.length; lia).
    rewrite Hlen in *.
    assert (Hl0 : 0 <= len l) by (unfold len; lia).
    destruct (PyFloatFacts.add_bounds acc x M 100 H0 HM Hx0 Hx100) as [Ha0 Ha]; [lia |].
    cbn [fold_left].
    destruct (IH (PyFloat.add acc x) (M + 100) Ha0 Ha Hall') as [Hr0 Hr]; [lia |].
    split; [exact Hr0 |].
    replace (M + 100 * (1 + len l)) with (M + 100 + 100 * len l) by lia. exact Hr.
Qed.

Lemma total_score_range (scores : list PyFloat.float) :
  Forall Spec.in_0_100 scores ->
  100 * len scores < 2 ^ 53 ->
  Spec.in_0_100 (Spec.total_score scores).
Proof.
  intros Hall Hb. unfold Spec.total_score.
  assert (Hn : scores <> [] -> 0 < len scores).
  { destruct scores; [contradiction | intros _; unfold len; simpl List.length; lia]. }
  destruct (fold_add_bounds scores (PyFloat.lit 0 1) 0) as [Hs0 Hs];
    [vm_compute; discriminate | vm_compute; discriminate | exact Hall | lia |].
  fold (Spec.float_sum scores) in Hs0, Hs.
  assert (Hmean : scores <> [] -> Spec.in_0_100 (PyFloat.round (Spec.mean scores) 2)).
  { intros Hne. specialize (Hn Hne). unfold Spec.mean.
    destruct (PyFloatFacts.div_int_bounds (Spec.float_sum scores) (len scores) 100 Hs0)
      as [Hm0 Hm]; [lia | exact Hs | lia |].
    apply (PyFloatFacts.round_bounds _ 2 100 Hm0 Hm). lia. }
  destruct scores as [| x l].
  - vm_compute. split; discriminate.
  - apply Hmean. discriminate.
Qed.

(** C9.  Every evaluation that the handler returns has as many
    per-question scores and as many per-question feedbacks as
    answers, that is, as many as the questions of the referenced
    interview, and every per-question score lies between 0 and 100;
    so does the total score, for any number of questions whose
    hundredfold is below 2^53 (the sum of the scores is then exact
    enough; it is so for any list that a machine can hold). *)
Theorem C9_evaluation_invariants :
  forall (st st' : Store) (req : EvaluateRequest) (ev : Evaluation),
    evaluate_answers st req = (st', Ok ev) ->
    exists q_models : list q_model,
      load_questions st (er_interview_id req) = Ok q_models /\
      e_answers ev = er_answers req /\
      List.length (e_answers ev) = List.length (e_per_question_scores ev) /\
      List.length (e_per_question_scores ev) = List.length (e_per_question_feedback ev) /\
      List.length (e_per_question_feedback ev) = List.length q_models /\
      Forall Spec.in_0_100 (e_per_question_scores ev) /\
      (100 * len (er_answers req) < 2 ^ 53 -> Spec.in_0_100 (e_total_score ev)).
Proof.
  intros st st' req ev H.
  destruct (evaluate_answers_ok_inv st st' req ev H) as (qs & Hload & Hlen & ->).
  exists (map QModel qs). split; [exact Hload |].
  unfold Spec.evaluation_of.
  cbn [e_answers e_per_question_scores e_per_question_feedback e_total_score].
  set (pairs := combine qs (er_answers req)).
  assert (Hp : List.length pairs = List.length qs).
  { unfold pairs. rewrite length_combine. lia. }
  assert (Hall : Forall Spec.in_0_100
                   (map (fun qa => Spec.question_score (fst qa) (snd qa)) pairs)).
  { apply Forall_map. apply Forall_forall. intros qa _. apply question_score_range. }
  rewrite !length_map, Hp.
  repeat split; try assumption; try reflexivity.
  - apply total_score_range; [exact Hall |].
    unfold len in *. rewrite length_map, Hp, <- Hlen. assumption.
  - apply total_score_range; [exact Hall |].
    unfold len in *. rewrite length_map, Hp, <- Hlen. assumption.
Qed.

Lemma C9_evaluation_invariants_witness :
  evaluate_answers Sample.store Sample.request
  = (fst (evaluate_answers Sample.store Sample.request), Ok Sample.evaluation) /\
  Forall Spec.in_0_100 (e_per_question_scores Sample.evaluation) /\
  Spec.in_0_100 (e_total_score Sample.evaluation).
Proof.
  assert (H : evaluate_answers Sample.store Sample.request
              = (fst (evaluate_answers Sample.store Sample.request),
                 Ok Sample.evaluation))
    by (vm_compute; reflexivity).
  split; [exact H |].
  destruct (C9_evaluation_invariants _ _ _ _ H) as (q_models & _ & _ & _ & _ & _ & Hs & Ht).
  split; [exact Hs |].
  apply Ht. vm_compute. reflexivity.
Defined.

(** The conversion loop on entries each of which converts into a
    [Question]. *)
Lemma convert_questions_models (items : list value) (qs : list Question) :
  Forall2 (fun item q => convert_question item = Ok (QModel q)) items qs ->
  convert_questions items = Ok (map QModel qs).
Proof.
  induction 1 as [| item q items qs Hc _ IH]; [reflexivity |].
  cbn [convert_questions map]. rewrite Hc, IH. reflexivity.
Qed.

Lemma Forall2_nth_error {A B : Type} (R : A -> B -> Prop) (l : list A) (l' : list B) :
  Forall2 R l l' ->
  forall i x, nth_error l i = Some x -> exists y, nth_error l' i = Some y /\ R x y.
Proof.
  induction 1 as [| a b l l' Hab _ IH]; intros i x Hi.
  - destruct i; discriminate.
  - destruct i as [| i]; simpl in *.
    + exists b. split; [reflexivity | congruence].
    + apply IH. exact Hi.
Qed.

(** A stored question with a text and without [keywords], or with an
    empty list of them, converts into a [Question] without keywords. *)
Lemma convert_question_no_keywords (d : dict value) (t : string) :
  dict_get d "text" = Some (VStr t) ->
  dict_get d "keywords" = None \/ dict_get d "keywords" = Some (VList []) ->
  convert_question (VDict d) = Ok (QModel (mkQuestion t [])).
Proof.
  intros Ht [Hk | Hk]; unfold convert_question, parse_question;
    rewrite Ht, Hk; reflexivity.
Qed.

(** C10.  A stored question that has a text and omits the field
    [keywords], or stores it as an empty list, becomes a [Question]
    with an empty keyword list, without any error.  When every entry
    of the stored interview converts into a [Question] and the
    answers are as many as the entries, the handler returns an
    evaluation, in which the score of such a question follows the
    word-count rule: 50.0 if its answer has more than 5
    whitespace-separated words, 20.0 otherwise. *)
Theorem C10_missing_keywords :
  (forall (d : dict value) (t : string),
      dict_get d "text" = Some (VStr t) ->
      dict_get d "keywords" = None \/ dict_get d "keywords" = Some (VList []) ->
      convert_question (VDict d) = Ok (QModel (mkQuestion t [])))
  /\
  (forall (st : Store) (req : EvaluateRequest) (docs : list Document)
          (interview_doc : Document) (items : list value) (qs : list Question),
      get_documents st "interview" 100 = inl docs ->
      find_interview docs (er_interview_id req) = Some interview_doc ->
      py_iter (dict_get_default (doc_fields interview_doc) "questions" (VList []))
      = Ok items ->
      Forall2 (fun item q => convert_question item = Ok (QModel q)) items qs ->
      List.length (er_answers req) = List.length items ->
      exists (st' : Store) (ev : Evaluation),
        evaluate_answers st req = (st', Ok ev) /\
        forall (i : nat) (d : dict value) (t a : string),
          nth_error items i = Some (VDict d) ->
          dict_get d "text" = Some (VStr t) ->
          dict_get d "keywords" = None \/ dict_get d "keywords" = Some (VList []) ->
          nth_error (er_answers req) i = Some a ->
          nth_error (e_per_question_scores ev) i
          = Some (if (5 <? Spec.word_count a)%nat
                  then PyFloat.lit 50 1 else PyFloat.lit 20 1)).
Proof.
  split; [exact convert_question_no_keywords |].
  intros st req docs interview_doc items qs Hget Hfind Hiter Hconv Hlen.
  assert (Hload : load_questions st (er_interview_id req) = Ok (map QModel qs)).
  { unfold load_questions. rewrite Hget, Hfind, Hiter. cbn [bind].
    apply convert_questions_models. exact Hconv. }
  assert (Hlen' : List.length (er_answers req) = List.length qs).
  { rewrite Hlen. apply (Forall2_length Hconv). }
  eexists. eexists. split; [apply (evaluate_answers_ok st req qs Hload Hlen') |].
  intros i d t a Hi Ht Hk Ha.
  destruct (Forall2_nth_error _ _ _ Hconv i _ Hi) as (q & Hq & Hc).
  rewrite (convert_question_no_keywords d t Ht Hk) in Hc.
  injection Hc as <-.
  destruct (evaluation_of_nth req qs i _ a Hq Ha) as [Hs _].
  rewrite Hs. reflexivity.
Qed.

Lemma C10_missing_keywords_witness :
  convert_question (VDict [("text", VStr "Describe a system you are proud of.")])
  = Ok (QModel (mkQuestion "Describe a system you are proud of." [])) /\
  exists (st' : Store) (ev : Evaluation),
    evaluate_answers Sample.store Sample.request = (st', Ok ev) /\
    nth_error (e_per_question_scores ev) 1 = Some (PyFloat.lit 50 1) /\
    nth_error (e_per_question_scores ev) 2 = Some (PyFloat.lit 20 1).
Proof.
  split.
  - apply (proj1 C10_missing_keywords); [reflexivity | left; reflexivity].
  - destruct (proj2 C10_missing_keywords Sample.store Sample.request
                [Sample.interview_doc] Sample.interview_doc
                [VDict [("text", VStr "Explain ACID properties in databases.");
                        ("keywords", VList [VStr "atomicity"; VStr "consistency";
                                            VStr "isolation"; VStr "durability"])];
                 VDict [("text", VStr "Describe a system you are proud of.")];
                 VDict [("text", VStr "Why do you want this job?");
                        ("keywords", VList [])]]
                Sample.questions)
      as (st' & ev & Hev & Hscore).
    + reflexivity.
    + vm_compute. reflexivity.
    + reflexivity.
    + repeat constructor.
    + reflexivity.
    + exists st', ev. split; [exact Hev |]. split.
      * apply (Hscore 1%nat [("text", VStr "Describe a system you are proud of.")]
                 "Describe a system you are proud of."
                 "It was a billing pipeline handling many events");
          [reflexivity | reflexivity | left; reflexivity | reflexivity].
      * apply (Hscore 2%nat [("text", VStr "Why do you want this job?");
                             ("keywords", VList [])]
                 "Why do you want this job?" "Good pay");
          [reflexivity | reflexivity | right; reflexivity | reflexivity].
Defined.

(* ================================================================== *)
(** * Further facts: dicts, strings, conversions *)
(* ================================================================== *)

Lemma dict_get_set_same {A : Type} (d : dict A) (key : string) (v : A) :
  dict_get (dict_set d key v) key = Some v.
Proof.
  induction d as [| [k w] d IH]; cbn [dict_set dict_get].
  - rewrite String.eqb_refl. reflexivity.
  - destruct (String.eqb k key) eqn:E; cbn [dict_get]; rewrite E; [reflexivity | exact IH].
Qed.

Lemma dict_get_set_other {A : Type} (d : dict A) (key key' : string) (v : A) :
  key <> key' -> dict_get (dict_set d key v) key' = dict_get d key'.
Proof.
  intros Hne. induction d as [| [k w] d IH]; cbn [dict_set dict_get].
  - destruct (String.eqb_spec key key'); [contradiction | reflexivity].
  - destruct (String.eqb_spec k key) as [-> | Hk]; cbn [dict_get].
    + destruct (String.eqb_spec key key'); [contradiction | reflexivity].
    + destruct (String.eqb k key'); [reflexivity | exact IH].
Qed.

Lemma dict_get_default_set_same {A : Type} (d : dict A) (key : string) (v default : A) :
  dict_get_default (dict_set d key v) key default = v.
Proof. unfold dict_get_default. rewrite dict_get_set_same. reflexivity. Qed.

Lemma dict_get_default_set_other {A : Type} (d : dict A) (key key' : string) (v default : A) :
  key <> key' ->
  dict_get_default (dict_set d key v) key' default = dict_get_default d key' default.
Proof. intros H. unfold dict_get_default. rewrite dict_get_set_other by exact H. reflexivity. Qed.

Lemma lower_char_idem (c : ascii) : PyStr.lower_char (PyStr.lower_char c) = PyStr.lower_char c.
Proof. destruct c as [[] [] [] [] [] [] [] []]; reflexivity. Qed.

Lemma lower_idem (s : string) : PyStr.lower (PyStr.lower s) = PyStr.lower s.
Proof. induction s as [| c s IH]; simpl; [reflexivity |]. rewrite lower_char_idem, IH. reflexivity. Qed.

Lemma all_str_VStr (ks : list string) : all_str (map VStr ks) = Some ks.
Proof. induction ks as [| k ks IH]; simpl; [reflexivity |]. rewrite IH. reflexivity. Qed.

Lemma parse_question_dump (q : Question) :
  parse_question [("text", VStr (q_text q)); ("keywords", VList (map VStr (q_keywords q)))]
  = Ok q.
Proof.
  unfold parse_question. cbn [dict_get String.eqb Ascii.eqb Bool.eqb].
  rewrite all_str_VStr. destruct q; reflexivity.
Qed.

Lemma convert_questions_dump (qs : list Question) :
  convert_questions (map dump_question qs) = Ok (map QModel qs).
Proof.
  induction qs as [| q qs IH]; [reflexivity |].
  cbn [map convert_questions]. unfold dump_question at 1. cbn [convert_question].
  rewrite parse_question_dump, IH. reflexivity.
Qed.

(** X1.  A question written to the store by [model_dump] and read
    back by the conversion loop of [evaluate_answers] is the same
    question: the dumped questions of an interview convert, in order
    and without error, into the questions themselves, keywords
    included. *)
Theorem X1_question_round_trip :
  (forall q : Question, convert_question (dump_question q) = Ok (QModel q)) /\
  (forall qs : list Question,
      convert_questions (map dump_question qs) = Ok (map QModel qs)).
Proof.
  split; [| exact convert_questions_dump].
  intros q. unfold dump_question. cbn [convert_question].
  rewrite parse_question_dump. reflexivity.
Qed.

(* ================================================================== *)
(** * Further facts: the handlers and the store *)
(* ================================================================== *)

(** A successful [create_interview]: the interview is the one built
    for the request, and the store holds one more document, first in
    the collection of interviews. *)
Lemma create_interview_ok_inv (st st' : Store) (req : InterviewRequest)
    (interview : Interview) (interview_id : string) :
  create_interview st req = (st', Ok (interview, interview_id)) ->
  build_interview req = Ok interview /\
  write_fault st = None /\
  interview_id = object_id (assigned st) /\
  st' = mkStore (dict_set (collections st) "interview"
                   (mkDocument interview_id (dump_interview interview)
                      :: dict_get_default (collections st) "interview" []))
                (S (assigned st)) (read_fault st) (write_fault st).
Proof.
  unfold create_interview. rewrite build_interview_ok. cbv zeta.
  unfold create_document.
  destruct (write_fault st) as [e |] eqn:W; [discriminate |].
  intros H. injection H as <- <- <-. auto.
Qed.

Lemma firstn_100_cons {A : Type} (x : A) (l : list A) :
  firstn 100 (x :: l) = x :: firstn 99 l.
Proof. reflexivity. Qed.

Lemma doc_matches_own_id (d : Document) : doc_matches (doc__id d) d = true.
Proof. unfold doc_matches. rewrite String.eqb_refl. reflexivity. Qed.

(** The questions of an interview that [create_interview] has just
    stored are loaded back as they were. *)
Lemma load_questions_created (st st' : Store) (req : InterviewRequest)
    (interview : Interview) (interview_id : string) :
  read_fault st = None ->
  create_interview st req = (st', Ok (interview, interview_id)) ->
  load_questions st' interview_id = Ok (map QModel (i_questions interview)).
Proof.
  intros Hr H.
  destruct (create_interview_ok_inv _ _ _ _ _ H) as (_ & _ & _ & ->).
  unfold load_questions, get_documents. cbn [read_fault collections]. rewrite Hr.
  rewrite dict_get_default_set_same, firstn_100_cons. cbn [find_interview].
  pose proof (doc_matches_own_id (mkDocument interview_id (dump_interview interview))) as Hm.
  cbn [doc__id] in Hm. rewrite Hm. cbn [doc_fields].
  unfold dump_interview, dict_get_default.
  cbn [dict_get String.eqb Ascii.eqb Bool.eqb py_iter bind].
  apply convert_questions_dump.
Qed.

(** X2.  An interview that [create_interview] has stored can be
    evaluated at once: when reads succeed, [evaluate_answers] called
    with the identifier returned and with as many answers as the
    interview has questions finds the interview and returns the
    evaluation of the answers against the questions selected at
    creation (no 404, no 400, no validation error). *)
Theorem X2_create_then_evaluate :
  forall (st st' : Store) (req : InterviewRequest) (interview : Interview)
         (interview_id : string) (ereq : EvaluateRequest),
    read_fault st = None ->
    create_interview st req = (st', Ok (interview, interview_id)) ->
    er_interview_id ereq = interview_id ->
    len (er_answers ereq) = i_num_questions interview ->
    exists st'' : Store,
      evaluate_answers st' ereq
      = (st'', Ok (Spec.evaluation_of ereq (i_questions interview))).
Proof.
  intros st st' req interview interview_id ereq Hr Hc Hid Hn.
  pose proof (load_questions_created _ _ _ _ _ Hr Hc) as Hload.
  rewrite <- Hid in Hload.
  assert (Hlen : List.length (er_answers ereq) = List.length (i_questions interview)).
  { destruct (create_interview_ok_inv _ _ _ _ _ Hc) as (Hb & _).
    rewrite build_interview_ok in Hb. cbv zeta in Hb. injection Hb as <-.
    cbn [i_num_questions i_questions] in *. unfold len in Hn. lia. }
  eexists. apply (evaluate_answers_ok st' ereq _ Hload Hlen).
Qed.

Lemma X2_create_then_evaluate_witness :
  exists st'' : Store,
    evaluate_answers (fst (create_interview Sample.store Sample.interview_request))
      (mkEvaluateRequest "oid-1" "Ada" ["ACID"; "b-tree index"; "the GIL"])
    = (st'', Ok (Spec.evaluation_of
                   (mkEvaluateRequest "oid-1" "Ada" ["ACID"; "b-tree index"; "the GIL"])
                   (firstn 3 (Spec.bank "backend")))).
Proof.
  apply (X2_create_then_evaluate Sample.store
           (fst (create_interview Sample.store Sample.interview_request))
           Sample.interview_request
           (mkInterview "Backend API Engineer" "Interview for Backend API Engineer"
                        "senior" 3 (firstn 3 (Spec.bank "backend")))
           "oid-1").
  - reflexivity.
  - vm_compute. reflexivity.
  - reflexivity.
  - reflexivity.
Defined.

(** X3.  An interview that [create_interview] has stored is the first
    that [list_interviews] returns afterwards, for any positive limit
    and when reads succeed: the dict listed holds the fields of the
    interview followed by the key "id" with the identifier that
    [create_interview] returned. *)
Theorem X3_create_then_list :
  forall (st st' : Store) (req : InterviewRequest) (interview : Interview)
         (interview_id : string) (limit : nat),
    read_fault st = None ->
    create_interview st req = (st', Ok (interview, interview_id)) ->
    (0 < limit)%nat ->
    exists rest : list (dict value),
      list_interviews st' limit
      = Ok ((dump_interview interview ++ [("id", VStr interview_id)])%list :: rest).
Proof.
  intros st st' req interview interview_id limit Hr Hc Hl.
  destruct (create_interview_ok_inv _ _ _ _ _ Hc) as (_ & _ & _ & ->).
  unfold list_interviews, get_documents. cbn [read_fault collections]. rewrite Hr.
  rewrite dict_get_default_set_same.
  destruct limit as [| n]; [lia |].
  cbn [firstn map]. eexists. reflexivity.
Qed.

Lemma X3_create_then_list_witness :
  exists rest : list (dict value),
    list_interviews (fst (create_interview Sample.store Sample.interview_request)) 20
    = Ok ((dump_interview
             (mkInterview "Backend API Engineer" "Interview for Backend API Engineer"
                          "senior" 3 (firstn 3 (Spec.bank "backend")))
           ++ [("id", VStr "oid-1")])%list :: rest).
Proof.
  apply (X3_create_then_list Sample.store _ Sample.interview_request _ "oid-1" 20).
  - reflexivity.
  - vm_compute. reflexivity.
  - repeat constructor.
Defined.

Lemma mask_id_get_id (d : Document) :
  dict_get (mask_id d) "id" = Some (VStr (doc__id d)).
Proof. apply dict_get_set_same. Qed.

Lemma mask_id_get_other (d : Document) (key : string) :
  key <> "id" -> dict_get (mask_id d) key = dict_get (doc_fields d) key.
Proof. intros H. apply dict_get_set_other. congruence. Qed.

(** X4.  [list_interviews] raises the HTTP error 500 when the read
    fails.  Otherwise it returns one dict per document read, in the
    order of the store and at most [limit] of them; each dict has
    under "id" the string of the identifier that the store assigned
    to the document, whatever field "id" the document had, and has
    every other field of the document unchanged. *)
Theorem X4_list_interviews :
  forall (st : Store) (limit : nat),
    (forall e, read_fault st = Some e ->
               list_interviews st limit = HTTPException 500 ("Database error: " ++ e)) /\
    (read_fault st = None ->
     let stored := dict_get_default (collections st) "interview" [] in
     exists listed : list (dict value),
       list_interviews st limit = Ok listed /\
       List.length listed = Nat.min limit (List.length stored) /\
       forall (i : nat) (d : dict value),
         nth_error listed i = Some d ->
         exists doc : Document,
           nth_error stored i = Some doc /\
           dict_get d "id" = Some (VStr (doc__id doc)) /\
           forall key, key <> "id" -> dict_get d key = dict_get (doc_fields doc) key).
Proof.
  intros st limit. split.
  - intros e He. unfold list_interviews, get_documents. rewrite He. reflexivity.
  - intros Hr stored. unfold list_interviews, get_documents. rewrite Hr. fold stored.
    exists (map mask_id (firstn limit stored)). split; [reflexivity |].
    split; [rewrite length_map, length_firstn; reflexivity |].
    intros i d Hi.
    rewrite nth_error_map in Hi.
    destruct (nth_error (firstn limit stored) i) as [doc |] eqn:E; [| discriminate].
    injection Hi as <-.
    exists doc. split.
    + rewrite nth_error_firstn in E.
      destruct (i <? limit)%nat; [exact E | discriminate].
    + split; [apply mask_id_get_id | intros key; apply mask_id_get_other].
Qed.

Lemma X4_list_interviews_witness :
  list_interviews Sample2.unreadable_store 20
  = HTTPException 500 "Database error: Database not available" /\
  exists listed : list (dict value),
    list_interviews Sample2.odd_store 2 = Ok listed /\ List.length listed = 2%nat.
Proof.
  split.
  - apply (proj1 (X4_list_interviews Sample2.unreadable_store 20)). reflexivity.
  - destruct (proj2 (X4_list_interviews Sample2.odd_store 2) eq_refl)
      as (listed & H & Hlen & _).
    exists listed. split; [exact H | exact Hlen].
Defined.

(** What a call of [create_document] does to the store. *)
Lemma create_document_effect (st st' : Store) (collection : string)
    (data : dict value) (r : string + string) :
  create_document st collection data = (st', r) ->
  (forall other, other <> collection ->
     dict_get_default (collections st') other []
     = dict_get_default (collections st) other []) /\
  read_fault st' = read_fault st /\
  write_fault st' = write_fault st /\
  match r with
  | inl oid =>
      write_fault st = None /\
      dict_get_default (collections st') collection []
      = mkDocument oid data :: dict_get_default (collections st) collection [] /\
      assigned st' = S (assigned st)
  | inr e => st' = st /\ write_fault st = Some e
  end.
Proof.
  unfold create_document. destruct (write_fault st) as [e |] eqn:W; intros H;
    injection H as <- <-.
  - repeat split; auto.
  - cbn [collections read_fault write_fault assigned]. repeat split; auto.
    + intros other Hne. apply dict_get_default_set_other. congruence.
    + apply dict_get_default_set_same.
Qed.

Lemma py_iter_result (v : value) :
  (exists items, py_iter v = Ok items) \/ py_iter v = Uncaught "TypeError".
Proof. destruct v; simpl; eauto. Qed.

Lemma convert_question_result (q : value) :
  (exists m, convert_question q = Ok m) \/ convert_question q = Uncaught "ValidationError".
Proof.
  destruct q; simpl; eauto.
  unfold parse_question.
  destruct (dict_get fields "text") as [[| | | | t | |] |]; simpl; auto.
  destruct (dict_get fields "keywords") as [[| | | | | ks |] |]; simpl; eauto.
  destruct (all_str ks); simpl; eauto.
Qed.

Lemma convert_questions_result (items : list value) :
  (exists ms, convert_questions items = Ok ms /\ List.length ms = List.length items) \/
  convert_questions items = Uncaught "ValidationError".
Proof.
  induction items as [| q items IH]; cbn [convert_questions].
  - left. exists []. auto.
  - destruct (convert_question_result q) as [[m ->] | ->]; cbn [bind]; [| auto].
    destruct IH as [(ms & -> & Hl) | ->]; cbn [bind]; [| auto].
    left. exists (m :: ms). simpl. auto.
Qed.

(** The scoring loop, when no answer is missing, ends normally or on
    an entry that is not a [Question]. *)
Lemma score_loop_result (q_models : list q_model) :
  forall (answers : list string) (i : nat) (acc : Acc),
    (i + List.length q_models <= List.length answers)%nat ->
    (exists acc', score_loop answers i q_models acc = Ok acc') \/
    score_loop answers i q_models acc = Uncaught "AttributeError".
Proof.
  induction q_models as [| m ms IH]; intros answers i acc Hlen; cbn [score_loop].
  - eauto.
  - simpl in Hlen. unfold score_step.
    destruct (nth_error answers i) as [a |] eqn:E.
    + destruct m as [q | v]; cbn [bind]; [| auto].
      apply IH. lia.
    + apply nth_error_None in E. lia.
Qed.

Lemma score_answers_result (req : EvaluateRequest) (q_models : list q_model) :
  (exists ev, score_answers req q_models = Ok ev) \/
  (score_answers req q_models
   = HTTPException 400 "Answers length must match number of questions" /\
   List.length (er_answers req) <> List.length q_models) \/
  (score_answers req q_models = Uncaught "AttributeError" /\
   List.length (er_answers req) = List.length q_models).
Proof.
  unfold score_answers.
  destruct (len (er_answers req) =? len q_models) eqn:E; cbn [negb].
  - apply len_eqb in E.
    destruct (score_loop_result q_models (er_answers req) 0
                (mkAcc [] [] (PyFloat.lit 0 1))) as [[acc ->] | ->]; [lia | |].
    + left. cbn [bind]. eauto.
    + right. right. auto.
  - right. left. split; [reflexivity |].
    intros H. apply len_eqb in H. congruence.
Qed.

(** X5.  The outcomes of [evaluate_answers].  An [HTTPException] it
    raises has the status 500, exactly when the read of the
    interviews failed, or 404, or 400; any other exception that
    leaves it is a [TypeError] (questions that cannot be iterated), a
    [ValidationError] (a stored question that is no [Question]) or an
    [AttributeError] (a stored question that is no dict): the indexing
    [answers[i]] of the scoring loop never raises. *)
Theorem X5_evaluate_outcomes :
  forall (st : Store) (req : EvaluateRequest),
    match snd (evaluate_answers st req) with
    | Ok ev => read_fault st = None
    | HTTPException status_code detail =>
        (status_code = 500 /\
         exists e, read_fault st = Some e /\ detail = "Database error: " ++ e) \/
        (read_fault st = None /\
         ((status_code = 404 /\ detail = "Interview not found") \/
          (status_code = 400 /\
           detail = "Answers length must match number of questions")))
    | Uncaught exception =>
        read_fault st = None /\
        (exception = "TypeError" \/ exception = "ValidationError" \/
         exception = "AttributeError")
    end.
Proof.
  intros st req. unfold evaluate_answers, load_questions, get_documents.
  destruct (read_fault st) as [e |] eqn:R.
  { cbn [snd]. left. split; [reflexivity |]. exists e. auto. }
  destruct (find_interview _ _) as [doc |]; [| cbn [snd]; auto].
  destruct (py_iter_result (dict_get_default (doc_fields doc) "questions" (VList [])))
    as [[items ->] | ->]; cbn [bind]; [| cbn [snd]; auto].
  destruct (convert_questions_result items) as [(ms & -> & _) | ->];
    [| cbn [snd]; auto].
  destruct (score_answers_result req ms) as [[ev ->] | [[-> _] | [-> _]]].
  - destruct (create_document st "evaluation" _). cbn [snd]. reflexivity.
  - cbn [snd]. right. auto.
  - cbn [snd]. auto.
Qed.

Lemma In_firstn_le {A : Type} (x : A) (l : list A) :
  forall n m : nat, (n <= m)%nat -> In x (firstn n l) -> In x (firstn m l).
Proof.
  induction l as [| y l IH]; intros n m Hle Hin.
  - rewrite firstn_nil in Hin. destruct Hin.
  - destruct n as [| n]; [destruct Hin |].
    destruct m as [| m]; [lia |].
    cbn [firstn] in *. destruct Hin as [-> | Hin]; [left; reflexivity |].
    right. apply (IH n m); [lia | exact Hin].
Qed.

(** X6.  An identifier that [list_interviews] shows, for a limit of
    at most 100, is accepted by [evaluate_answers]: the lookup finds
    an interview, so that the request is not answered by the HTTP
    error 404. *)
Theorem X6_listed_id_is_found :
  forall (st : Store) (limit : nat) (listed : list (dict value))
         (d : dict value) (req : EvaluateRequest),
    (limit <= 100)%nat ->
    list_interviews st limit = Ok listed ->
    In d listed ->
    dict_get d "id" = Some (VStr (er_interview_id req)) ->
    (exists docs doc,
        get_documents st "interview" 100 = inl docs /\
        find_interview docs (er_interview_id req) = Some doc) /\
    forall detail, snd (evaluate_answers st req) <> HTTPException 404 detail.
Proof.
  intros st limit listed d req Hl Hlist Hin Hid.
  unfold list_interviews in Hlist. unfold get_documents in *.
  destruct (read_fault st) as [e |] eqn:R; [discriminate |].
  injection Hlist as <-.
  apply in_map_iff in Hin. destruct Hin as (doc & <- & Hdoc).
  rewrite mask_id_get_id in Hid. injection Hid as Hid.
  apply (In_firstn_le _ _ limit 100 Hl) in Hdoc.
  set (docs := firstn 100 (dict_get_default (collections st) "interview" [])) in *.
  assert (Hfind : exists found, find_interview docs (er_interview_id req) = Some found).
  { destruct (find_interview docs (er_interview_id req)) as [found |] eqn:F; [eauto |].
    pose proof (proj1 (find_interview_none docs (er_interview_id req)) F doc Hdoc) as F'.
    rewrite <- Hid, doc_matches_own_id in F'. discriminate. }
  destruct Hfind as [found Hfound].
  split; [exists docs, found; auto |].
  intros detail.
  unfold evaluate_answers, load_questions, get_documents. rewrite R. fold docs.
  rewrite Hfound.
  destruct (py_iter_result (dict_get_default (doc_fields found) "questions" (VList [])))
    as [[items ->] | ->]; cbn [bind]; [| cbn [snd]; discriminate].
  destruct (convert_questions_result items) as [(ms & -> & _) | ->];
    [| cbn [snd]; discriminate].
  destruct (score_answers_result req ms) as [[ev ->] | [[-> _] | [-> _]]].
  - destruct (create_document st "evaluation" _). cbn [snd]. discriminate.
  - cbn [snd]. discriminate.
  - cbn [snd]. discriminate.
Qed.

Lemma X6_listed_id_is_found_witness :
  exists docs doc,
    get_documents Sample2.odd_store "interview" 100 = inl docs /\
    find_interview docs "aa03" = Some doc.
Proof.
  apply (X6_listed_id_is_found Sample2.odd_store 20
           (map mask_id [Sample2.no_text_doc; Sample2.not_a_dict_doc; Sample2.no_questions_doc])
           (mask_id Sample2.no_questions_doc)
           (mkEvaluateRequest "aa03" "Ada" [])).
  - repeat constructor.
  - reflexivity.
  - right. right. left. reflexivity.
  - reflexivity.
Defined.

(** X7.  What [evaluate_answers] does to the store.  It changes no
    collection but "evaluation", and never the interviews.  When it
    does not return an [Evaluation], the store is as it was.  When it
    returns one and writes succeed, the store holds one more
    document, first in "evaluation": the dump of the [Evaluation]
    returned, under the identifier assigned. *)
Theorem X7_evaluate_store_effect :
  forall (st : Store) (req : EvaluateRequest),
    let st' := fst (evaluate_answers st req) in
    let r := snd (evaluate_answers st req) in
    (forall other, other <> "evaluation" ->
       dict_get_default (collections st') other []
       = dict_get_default (collections st) other []) /\
    match r with
    | Ok ev =>
        match write_fault st with
        | None =>
            dict_get_default (collections st') "evaluation" []
            = mkDocument (object_id (assigned st)) (dump_evaluation ev)
                :: dict_get_default (collections st) "evaluation" [] /\
            assigned st' = S (assigned st)
        | Some _ => st' = st
        end
    | _ => st' = st
    end.
Proof.
  intros st req st' r. unfold st', r, evaluate_answers. clear st' r.
  destruct (load_questions st (er_interview_id req)) as [q_models | |];
    [| cbn [fst snd]; auto | cbn [fst snd]; auto].
  destruct (score_answers req q_models) as [ev | |];
    [| cbn [fst snd]; auto | cbn [fst snd]; auto].
  destruct (create_document st "evaluation" (dump_evaluation ev)) as [st' res] eqn:C.
  cbn [fst snd].
  destruct (create_document_effect _ _ _ _ _ C) as (Hother & _ & _ & Hres).
  split; [exact Hother |].
  unfold create_document in C.
  destruct (write_fault st) as [e |]; injection C as <- <-.
  - reflexivity.
  - cbn [collections assigned]. split; [apply dict_get_default_set_same | reflexivity].
Qed.

(** X8.  What [create_interview] does to the store.  It changes no
    collection but "interview".  When it fails the store is as it
    was.  When it succeeds the identifier returned is the one under
    which the interview stands first in "interview", and one more
    identifier is assigned. *)
Theorem X8_create_store_effect :
  forall (st : Store) (req : InterviewRequest),
    let st' := fst (create_interview st req) in
    let r := snd (create_interview st req) in
    (forall other, other <> "interview" ->
       dict_get_default (collections st') other []
       = dict_get_default (collections st) other []) /\
    match r with
    | Ok (interview, interview_id) =>
        dict_get_default (collections st') "interview" []
        = mkDocument interview_id (dump_interview interview)
            :: dict_get_default (collections st) "interview" [] /\
        assigned st' = S (assigned st)
    | _ => st' = st
    end.
Proof.
  intros st req st' r. unfold st', r, create_interview. clear st' r.
  rewrite build_interview_ok. cbv beta match zeta.
  destruct (create_document st "interview" _) as [st' [oid | e]] eqn:C; cbn [fst snd];
    destruct (create_document_effect _ _ _ _ _ C) as (Hother & _ & _ & Hres).
  - split; [exact Hother |]. destruct Hres as (_ & Hc & Ha). auto.
  - split; [exact Hother |]. apply Hres.
Qed.

(* ================================================================== *)
(** * Further facts: stored questions that are not as expected *)
(* ================================================================== *)

Lemma load_questions_found (st : Store) (interview_id : string)
    (docs : list Document) (interview_doc : Document) :
  get_documents st "interview" 100 = inl docs ->
  find_interview docs interview_id = Some interview_doc ->
  load_questions st interview_id
  = bind (py_iter (dict_get_default (doc_fields interview_doc) "questions" (VList [])))
         convert_questions.
Proof. intros Hg Hf. unfold load_questions. rewrite Hg, Hf. reflexivity. Qed.

Lemma convert_questions_invalid (items : list value) (q : value) :
  In q items -> convert_question q = Uncaught "ValidationError" ->
  convert_questions items = Uncaught "ValidationError".
Proof.
  induction items as [| x items IH]; intros Hin Hq; [destruct Hin |].
  cbn [convert_questions].
  destruct Hin as [-> | Hin].
  - rewrite Hq. reflexivity.
  - destruct (convert_question_result x) as [[m ->] | ->]; cbn [bind]; [| reflexivity].
    rewrite (IH Hin Hq). reflexivity.
Qed.

(** X9.  The stored questions are validated before the answers are
    counted.  When a question of the interview found is a dict whose
    "text" is missing or is not a string, [evaluate_answers] ends on
    the [ValidationError] of [Question], which it does not catch,
    whatever the number of answers (the HTTP error 400 is not raised),
    and the store is as it was. *)
Theorem X9_invalid_question_before_count :
  forall (st : Store) (req : EvaluateRequest) (docs : list Document)
         (interview_doc : Document) (questions : list value) (d : dict value),
    get_documents st "interview" 100 = inl docs ->
    find_interview docs (er_interview_id req) = Some interview_doc ->
    dict_get (doc_fields interview_doc) "questions" = Some (VList questions) ->
    In (VDict d) questions ->
    (forall t, dict_get d "text" <> Some (VStr t)) ->
    evaluate_answers st req = (st, Uncaught "ValidationError").
Proof.
  intros st req docs interview_doc questions d Hg Hf Hq Hin Ht.
  unfold evaluate_answers.
  rewrite (load_questions_found _ _ _ _ Hg Hf).
  unfold dict_get_default. rewrite Hq. cbn [py_iter bind].
  rewrite (convert_questions_invalid questions (VDict d) Hin); [reflexivity |].
  cbn [convert_question]. unfold parse_question.
  destruct (dict_get d "text") as [[| | | | t | |] |]; try reflexivity.
  exfalso. apply (Ht t). reflexivity.
Qed.

Lemma X9_invalid_question_before_count_witness :
  evaluate_answers Sample2.odd_store (mkEvaluateRequest "aa01" "Ada" ["one"; "two"])
  = (Sample2.odd_store, Uncaught "ValidationError").
Proof.
  apply (X9_invalid_question_before_count Sample2.odd_store
           (mkEvaluateRequest "aa01" "Ada" ["one"; "two"])
           [Sample2.no_text_doc; Sample2.not_a_dict_doc; Sample2.no_questions_doc]
           Sample2.no_text_doc
           [VDict [("keywords", VList [VStr "redis"])]]
           [("keywords", VList [VStr "redis"])]).
  - reflexivity.
  - reflexivity.
  - reflexivity.
  - left. reflexivity.
  - intros t. discriminate.
Defined.

(** The scoring loop on entries one of which is not a [Question],
    with one answer left per entry. *)
Lemma score_loop_other (q_models : list q_model) :
  forall (done rest : list string) (acc : Acc),
    List.length rest = List.length q_models ->
    (exists v, In (QOther v) q_models) ->
    score_loop (done ++ rest) (List.length done) q_models acc = Uncaught "AttributeError".
Proof.
  induction q_models as [| m ms IH]; intros done rest acc Hlen [v Hin]; [destruct Hin |].
  destruct rest as [| a rest]; [discriminate |].
  cbn [score_loop]. unfold score_step.
  rewrite nth_error_app2 by lia. rewrite Nat.sub_diag. cbn [nth_error].
  destruct m as [q | w]; [| reflexivity].
  cbn [bind].
  replace (done ++ a :: rest)%list with ((done ++ [a]) ++ rest)%list
    by (rewrite <- app_assoc; reflexivity).
  replace (S (List.length done)) with (List.length (done ++ [a])%list)
    by (rewrite length_app; simpl; lia).
  apply IH; [simpl in Hlen; lia |].
  destruct Hin as [Hin | Hin]; [discriminate | eauto].
Qed.

Lemma convert_questions_keeps_other (items : list value) :
  forall ms v,
    convert_questions items = Ok ms ->
    In v items -> (forall d, v <> VDict d) -> In (QOther v) ms.
Proof.
  induction items as [| x items IH]; intros ms v Hc Hin Hv; [destruct Hin |].
  cbn [convert_questions] in Hc.
  destruct (convert_question x) as [m | |] eqn:E; cbn [bind] in Hc; try discriminate.
  destruct (convert_questions items) as [ms' | |]; cbn [bind] in Hc; try discriminate.
  injection Hc as <-.
  destruct Hin as [-> | Hin].
  - left. destruct v; cbn [convert_question] in E; congruence.
  - right. apply IH; auto.
Qed.

(** X10.  A stored question that is not a dict passes the conversion
    loop as it is and fails in the scoring loop.  When all the dicts
    among the stored questions are valid, one entry is not a dict and
    the answers are as many as the entries, [evaluate_answers] ends on
    an [AttributeError], which it does not catch, and writes nothing;
    when the answers are not as many, it raises the HTTP error 400. *)
Theorem X10_question_not_a_dict :
  forall (st : Store) (req : EvaluateRequest) (docs : list Document)
         (interview_doc : Document) (questions : list value)
         (q_models : list q_model) (v : value),
    get_documents st "interview" 100 = inl docs ->
    find_interview docs (er_interview_id req) = Some interview_doc ->
    dict_get (doc_fields interview_doc) "questions" = Some (VList questions) ->
    convert_questions questions = Ok q_models ->
    In v questions ->
    (forall d, v <> VDict d) ->
    (List.length (er_answers req) = List.length questions ->
     evaluate_answers st req = (st, Uncaught "AttributeError")) /\
    (List.length (er_answers req) <> List.length questions ->
     evaluate_answers st req
     = (st, HTTPException 400 "Answers length must match number of questions")).
Proof.
  intros st req docs interview_doc questions q_models v Hg Hf Hq Hc Hin Hv.
  assert (Hload : load_questions st (er_interview_id req) = Ok q_models).
  { rewrite (load_questions_found _ _ _ _ Hg Hf).
    unfold dict_get_default. rewrite Hq. exact Hc. }
  assert (Hl : List.length q_models = List.length questions).
  { destruct (convert_questions_result questions) as [(ms & Hms & Hlen) | Hbad];
      congruence. }
  unfold evaluate_answers, score_answers. rewrite Hload. split; intros Hlen.
  - replace (len (er_answers req) =? len q_models) with true
      by (symmetry; apply len_eqb; congruence).
    cbn [negb].
    rewrite (score_loop_other q_models [] (er_answers req)); [reflexivity | congruence |].
    exists v. apply (convert_questions_keeps_other questions); assumption.
  - destruct (len (er_answers req) =? len q_models) eqn:E; [| reflexivity].
    apply len_eqb in E. congruence.
Qed.

Lemma X10_question_not_a_dict_witness :
  evaluate_answers Sample2.odd_store (mkEvaluateRequest "aa02" "Ada" ["one"])
  = (Sample2.odd_store, Uncaught "AttributeError") /\
  evaluate_answers Sample2.odd_store (mkEvaluateRequest "aa02" "Ada" [])
  = (Sample2.odd_store,
     HTTPException 400 "Answers length must match number of questions").
Proof.
  split.
  - apply (X10_question_not_a_dict Sample2.odd_store
             (mkEvaluateRequest "aa02" "Ada" ["one"])
             [Sample2.no_text_doc; Sample2.not_a_dict_doc; Sample2.no_questions_doc]
             Sample2.not_a_dict_doc [VStr "What is an index?"]
             [QOther (VStr "What is an index?")] (VStr "What is an index?"));
      try reflexivity; [left; reflexivity | intros d; discriminate].
  - apply (X10_question_not_a_dict Sample2.odd_store
             (mkEvaluateRequest "aa02" "Ada" [])
             [Sample2.no_text_doc; Sample2.not_a_dict_doc; Sample2.no_questions_doc]
             Sample2.not_a_dict_doc [VStr "What is an index?"]
             [QOther (VStr "What is an index?")] (VStr "What is an index?"));
      try reflexivity; [left; reflexivity | intros d; discriminate | discriminate].
Defined.

(** X11.  An interview stored without the field "questions" has no
    question.  With no answer, [evaluate_answers] returns an
    evaluation without scores, whose total is 0.0 and whose verdict is
    "Below expectations"; with any answer it raises the HTTP error
    400. *)
Theorem X11_no_questions_field :
  forall (st : Store) (req : EvaluateRequest) (docs : list Document)
         (interview_doc : Document),
    get_documents st "interview" 100 = inl docs ->
    find_interview docs (er_interview_id req) = Some interview_doc ->
    dict_get (doc_fields interview_doc) "questions" = None ->
    (er_answers req = [] ->
     snd (evaluate_answers st req)
     = Ok (mkEvaluation (er_interview_id req) (er_candidate_name req) [] [] []
                        (PyFloat.lit 0 1) "Below expectations")) /\
    (er_answers req <> [] ->
     evaluate_answers st req
     = (st, HTTPException 400 "Answers length must match number of questions")).
Proof.
  intros st req docs interview_doc Hg Hf Hq.
  assert (Hload : load_questions st (er_interview_id req) = Ok []).
  { rewrite (load_questions_found _ _ _ _ Hg Hf).
    unfold dict_get_default. rewrite Hq. reflexivity. }
  unfold evaluate_answers, score_answers. rewrite Hload. split; intros Ha.
  - rewrite Ha. cbn [List.length len Z.of_nat Z.eqb negb score_loop bind].
    destruct (create_document st "evaluation" _). reflexivity.
  - destruct (er_answers req) as [| a l]; [contradiction | reflexivity].
Qed.

Lemma X11_no_questions_field_witness :
  snd (evaluate_answers Sample2.odd_store (mkEvaluateRequest "legacy-7" "Ada" []))
  = Ok (mkEvaluation "legacy-7" "Ada" [] [] [] (PyFloat.lit 0 1) "Below expectations").
Proof.
  apply (X11_no_questions_field Sample2.odd_store
           (mkEvaluateRequest "legacy-7" "Ada" [])
           [Sample2.no_text_doc; Sample2.not_a_dict_doc; Sample2.no_questions_doc]
           Sample2.no_questions_doc); reflexivity.
Defined.

(* ================================================================== *)
(** * Further facts: scoring *)
(* ================================================================== *)

Lemma score_step_lower (answers answers' : list string) (i : nat) (q : q_model) (acc : Acc) :
  lower_all answers = lower_all answers' ->
  score_step answers i q acc = score_step answers' i q acc.
Proof.
  intros H. unfold score_step.
  assert (E : option_map PyStr.lower (nth_error answers i)
              = option_map PyStr.lower (nth_error answers' i)).
  { unfold lower_all in H. rewrite <- !nth_error_map, H. reflexivity. }
  destruct (nth_error answers i) as [a |], (nth_error answers' i) as [a' |];
    simpl in E; try discriminate; [| reflexivity].
  injection E as ->. reflexivity.
Qed.

Lemma score_loop_lower (answers answers' : list string) (q_models : list q_model) :
  lower_all answers = lower_all answers' ->
  forall (i : nat) (acc : Acc),
    score_loop answers i q_models acc = score_loop answers' i q_models acc.
Proof.
  intros H. induction q_models as [| q ms IH]; intros i acc; cbn [score_loop].
  - reflexivity.
  - rewrite (score_step_lower answers answers' i q acc H).
    destruct (score_step answers' i q acc); cbn [bind]; auto.
Qed.

(** X12.  The scoring does not look at the case of the letters of the
    answers.  When two requests have answers that are equal once
    lower-cased, and one is scored, the other is scored too, with the
    same per-question scores, the same feedback, the same total score
    and the same verdict. *)
Theorem X12_scoring_ignores_case :
  forall (req req' : EvaluateRequest) (q_models : list q_model) (ev : Evaluation),
    lower_all (er_answers req) = lower_all (er_answers req') ->
    score_answers req q_models = Ok ev ->
    exists ev' : Evaluation,
      score_answers req' q_models = Ok ev' /\
      e_per_question_scores ev' = e_per_question_scores ev /\
      e_per_question_feedback ev' = e_per_question_feedback ev /\
      e_total_score ev' = e_total_score ev /\
      e_verdict ev' = e_verdict ev.
Proof.
  intros req req' q_models ev H Hs. unfold score_answers in *.
  assert (Hlen : len (er_answers req') = len (er_answers req)).
  { unfold len. apply (f_equal (@List.length string)) in H.
    unfold lower_all in H. rewrite !length_map in H. congruence. }
  rewrite Hlen.
  destruct (negb (len (er_answers req) =? len q_models)); [discriminate |].
  rewrite <- (score_loop_lower _ _ q_models H).
  destruct (score_loop (er_answers req) 0 q_models _) as [acc | |];
    cbn [bind] in *; try discriminate.
  injection Hs as <-. eexists. split; [reflexivity |]. cbn. auto.
Qed.

Lemma X12_scoring_ignores_case_witness :
  exists ev' : Evaluation,
    score_answers
      (mkEvaluateRequest "65f1c0ffee" "Ada"
         ["THE DATABASE GUARANTEES ATOMICITY AND CONSISTENCY";
          "IT WAS A BILLING PIPELINE HANDLING MANY EVENTS";
          "GOOD PAY"])
      (map QModel Sample.questions) = Ok ev' /\
    e_per_question_scores ev' = e_per_question_scores Sample.evaluation /\
    e_per_question_feedback ev' = e_per_question_feedback Sample.evaluation /\
    e_total_score ev' = e_total_score Sample.evaluation /\
    e_verdict ev' = e_verdict Sample.evaluation.
Proof.
  apply (X12_scoring_ignores_case Sample.request).
  - vm_compute. reflexivity.
  - vm_compute. reflexivity.
Defined.

(* ================================================================== *)
(** * Further facts: the interview built for a request *)
(* ================================================================== *)

Lemma infer_track_cases (role : string) :
  infer_track role = "frontend" \/ infer_track role = "backend".
Proof.
  unfold infer_track.
  destruct (_ || _); [auto |]. destruct (_ || _); auto.
Qed.

(** X14.  What the number requested does to the selection.  The
    banks having five entries each, the cap of 10 never binds: the
    selection is the first [max(1, num_questions)] entries of the
    bank.  A request for five questions or more gets the whole bank,
    a request for one or fewer gets the first question alone, and a
    smaller request gets a prefix of what a larger one gets. *)
Theorem X14_selection_by_count :
  forall (role : string),
    let bank := map (fun '(q, keys) => mkQuestion q keys)
                    (dict_get_default BASE_QUESTIONS (infer_track role) []) in
    let selection := select_questions (infer_track role) in
    (forall n, selection n = firstn (Z.to_nat (Z.max 1 n)) bank) /\
    (forall n, 5 <= n -> selection n = bank) /\
    (forall n, n <= 1 -> selection n = firstn 1 bank) /\
    (forall n m, n <= m -> exists rest, selection m = (selection n ++ rest)%list).
Proof.
  intros role bank selection.
  assert (Hbank : List.length bank = 5%nat) by apply (bank_length role).
  assert (Hsel : forall n, selection n = firstn (Z.to_nat (Spec.clamp n 1 10)) bank).
  { intros n. apply select_questions_bank. }
  assert (H1 : forall n, selection n = firstn (Z.to_nat (Z.max 1 n)) bank).
  { intros n. rewrite Hsel. unfold Spec.clamp.
    destruct (Z.ltb_spec n 1); [f_equal; lia |].
    destruct (Z.ltb_spec 10 n); [| f_equal; lia].
    rewrite !firstn_all2 by lia. reflexivity. }
  split; [exact H1 |]. split; [| split].
  - intros n Hn. rewrite H1. apply firstn_all2. lia.
  - intros n Hn. rewrite H1. f_equal. lia.
  - intros n m Hnm. rewrite !H1.
    exists (skipn (Z.to_nat (Z.max 1 n)) (firstn (Z.to_nat (Z.max 1 m)) bank)).
    rewrite <- (firstn_skipn (Z.to_nat (Z.max 1 n)) (firstn (Z.to_nat (Z.max 1 m)) bank)) at 1.
    rewrite firstn_firstn. do 2 f_equal. lia.
Qed.

(** X15.  The role and the description of the interview built for a
    request.  A role that is not empty is kept; an empty role becomes
    "Frontend Engineer", an empty string being inferred as frontend,
    so that the default name of the backend track is never
    substituted.  A description that is given and not empty is kept;
    otherwise it is "Interview for " followed by the role of the
    request, as given (empty when the role was empty). *)
Theorem X15_role_and_description :
  forall req : InterviewRequest,
    exists interview : Interview,
      build_interview req = Ok interview /\
      i_level interview = ir_level req /\
      i_role interview
      = (if String.eqb (ir_role req) "" then "Frontend Engineer" else ir_role req) /\
      i_description interview
      = match ir_description req with
        | Some (String c d) => String c d
        | _ => "Interview for " ++ ir_role req
        end.
Proof.
  intros req. rewrite build_interview_ok. cbv zeta.
  eexists. split; [reflexivity |]. cbn [i_level i_role i_description].
  split; [reflexivity |]. split.
  - destruct (ir_role req) as [| c r]; reflexivity.
  - destruct (ir_description req) as [[| c d] |]; reflexivity.
Qed.

(* ================================================================== *)
(** * Further facts: the values of the scores *)
(* ================================================================== *)

Lemma inject_Z_pos_neq_0 (n : Z) : 0 < n -> ~ (inject_Z n == 0)%Q.
Proof. intros Hn E. unfold Qeq in E. simpl in E. lia. Qed.

(** [a / b] is exact when [b] divides [a] and the quotient is a whole
    number that floats hold. *)
Lemma int_truediv_exact (v b : Z) :
  0 < b -> PyFloat.int_truediv (v * b) b = PyFloat.of_int v.
Proof.
  intros Hb. unfold PyFloat.int_truediv, PyFloat.of_int.
  apply PyFloatFacts.rnd_compat.
  rewrite inject_Z_mult. field. apply inject_Z_pos_neq_0. exact Hb.
Qed.

Lemma filter_nil_of_negb_all {A : Type} (f : A -> bool) (l : list A) :
  filter (fun x => negb (f x)) l = l -> filter f l = [].
Proof.
  intros H. pose proof (filter_length f l) as Hl. rewrite H in Hl.
  destruct (filter f l); [reflexivity | simpl in Hl; lia].
Qed.

(** X16.  The two ends of the keyword score.  For a question with
    keywords, an answer in which no keyword is missing scores 100.0
    and gets "Good coverage."; an answer in which every keyword is
    missing scores 0.0 and gets "Missing: " followed by all the
    keywords, joined by ", ". *)
Theorem X16_full_and_no_coverage :
  forall (q : Question) (ans : string),
    q_keywords q <> [] ->
    (missing (q_keywords q) ans = [] ->
     score_of q ans = PyFloat.lit 100 1 /\
     feedback_of (score_of q ans) (missing (q_keywords q) ans) = "Good coverage.") /\
    (missing (q_keywords q) ans = q_keywords q ->
     score_of q ans = PyFloat.lit 0 1 /\
     feedback_of (score_of q ans) (missing (q_keywords q) ans)
     = "Missing: " ++ PyStr.join ", " (q_keywords q)).
Proof.
  intros q ans Hk. unfold score_of, covered, missing. rewrite py_sum_ones.
  destruct (q_keywords q) as [| k ks] eqn:K; [contradiction |].
  set (kws := k :: ks) in *.
  assert (Hn : 0 < len kws) by (unfold len, kws; simpl List.length; lia).
  split; intros Hm.
  - rewrite (filter_negb_nil _ _ Hm). fold (len kws).
    rewrite (int_truediv_exact 100 (len kws) Hn).
    rewrite Hm. split; vm_compute; reflexivity.
  - rewrite (filter_nil_of_negb_all _ _ Hm). cbn [List.length Z.of_nat].
    replace (100 * 0) with (0 * len kws) by lia.
    rewrite (int_truediv_exact 0 (len kws) Hn).
    rewrite Hm. split; [vm_compute; reflexivity |].
    unfold feedback_of, kws.
    replace (PyFloat.gt_int (PyFloat.round (PyFloat.of_int 0) 2) 70) with false
      by (vm_compute; reflexivity).
    reflexivity.
Qed.

Lemma X16_full_and_no_coverage_witness :
  score_of (mkQuestion "Explain ACID properties in databases."
                       ["atomicity"; "consistency"; "isolation"; "durability"])
           (PyStr.lower "I do not know")
  = PyFloat.lit 0 1 /\
  feedback_of
    (score_of (mkQuestion "Explain ACID properties in databases."
                          ["atomicity"; "consistency"; "isolation"; "durability"])
              (PyStr.lower "I do not know"))
    (missing ["atomicity"; "consistency"; "isolation"; "durability"]
             (PyStr.lower "I do not know"))
  = "Missing: atomicity, consistency, isolation, durability".
Proof.
  apply (X16_full_and_no_coverage
           (mkQuestion "Explain ACID properties in databases."
                       ["atomicity"; "consistency"; "isolation"; "durability"])
           (PyStr.lower "I do not know")).
  - discriminate.
  - vm_compute. reflexivity.
Defined.

(** A float rounded to two decimal places is the float nearest to a
    whole number of hundredths. *)
Lemma round_2_hundredths (x : PyFloat.float) (N : Z) :
  (0 <= x)%Q -> (x <= inject_Z N)%Q ->
  exists k : Z, 0 <= k <= 100 * N /\ PyFloat.round x 2 = PyFloat.lit k 100.
Proof.
  intros H0 HN. unfold PyFloat.round, PyFloat.lit.
  change (10 ^ Z.of_nat 2) with 100.
  exists (PyFloat.rhe (x * inject_Z 100)). split.
  - split.
    + apply PyFloatFacts.rhe_ge. change (inject_Z 0) with 0%Q.
      apply Qmult_le_0_compat; [exact H0 | discriminate].
    + apply PyFloatFacts.rhe_le. rewrite inject_Z_mult.
      rewrite (Qmult_comm (inject_Z 100)).
      apply Qmult_le_compat_r; [exact HN | discriminate].
  - apply PyFloatFacts.rnd_compat. symmetry. apply Qmake_Qdiv.
Qed.

Lemma float_sum_nonneg (l : list PyFloat.float) :
  forall acc, (0 <= acc)%Q -> Forall Spec.in_0_100 l ->
              (0 <= fold_left PyFloat.add l acc)%Q.
Proof.
  induction l as [| x l IH]; intros acc Hacc Hall; [exact Hacc |].
  inversion Hall as [| ? ? [Hx _] Hall']; subst. cbn [fold_left].
  apply IH; [| exact Hall'].
  unfold PyFloat.add. apply PyFloatFacts.rnd_nonneg.
  apply (Qplus_le_compat 0 acc 0 x); assumption.
Qed.

(** X17.  Every score is a number of hundredths.  In an evaluation
    that the handler returns, every per-question score is the float
    nearest to k/100 for a whole number k from 0 to 10000, and the
    total score is the float nearest to k/100 for a whole number
    k >= 0. *)
Theorem X17_scores_are_hundredths :
  forall (st st' : Store) (req : EvaluateRequest) (ev : Evaluation),
    evaluate_answers st req = (st', Ok ev) ->
    Forall (fun s => exists k, 0 <= k <= 10000 /\ s = PyFloat.lit k 100)
           (e_per_question_scores ev) /\
    exists k, 0 <= k /\ e_total_score ev = PyFloat.lit k 100.
Proof.
  intros st st' req ev H.
  destruct (evaluate_answers_ok_inv st st' req ev H) as (qs & _ & _ & ->).
  unfold Spec.evaluation_of. cbn [e_per_question_scores e_total_score].
  set (scores := map _ (combine qs (er_answers req))).
  assert (Hall : Forall Spec.in_0_100 scores).
  { apply Forall_map. apply Forall_forall. intros qa _. apply question_score_range. }
  split.
  - apply Forall_map. apply Forall_forall. intros [q a] _. cbn [fst snd].
    unfold Spec.question_score.
    destruct (q_keywords q) as [| k ks] eqn:K.
    + destruct (5 <? Spec.word_count a)%nat;
        [exists 5000 | exists 2000]; (split; [lia | vm_compute; reflexivity]).
    + pose proof (question_score_range q a) as R.
      set (kws := k :: ks) in *.
      pose proof (filter_length_le (fun k => Spec.ci_substring k a) kws) as Hc.
      fold (Spec.found kws a) in Hc.
      assert (Hn : 0 < Z.of_nat (List.length kws))
        by (unfold kws; simpl List.length; lia).
      destruct (PyFloatFacts.int_truediv_bounds
                  (100 * Z.of_nat (List.length (Spec.found kws a)))
                  (Z.of_nat (List.length kws)) 100) as [H0 H100]; try lia.
      destruct (round_2_hundredths _ 100 H0 H100) as (j & Hj & ->).
      exists j. split; [lia | reflexivity].
  - unfold Spec.total_score. destruct scores as [| s l] eqn:E.
    + exists 0. split; [lia | vm_compute; reflexivity].
    + rewrite <- E in *. clear E.
      assert (Hm : (0 <= Spec.mean scores)%Q).
      { unfold Spec.mean, PyFloat.div_int, Spec.float_sum.
        apply PyFloatFacts.rnd_nonneg. unfold Qdiv.
        apply Qmult_le_0_compat.
        - apply float_sum_nonneg; [vm_compute; discriminate | exact Hall].
        - apply Qinv_le_0_compat. unfold PyFloat.of_int.
          apply PyFloatFacts.rnd_nonneg.
          change 0%Q with (inject_Z 0). rewrite <- Zle_Qle. unfold len. lia. }
      destruct (round_2_hundredths _ (Qceiling (Spec.mean scores)) Hm
                  (Qle_ceiling _)) as (j & Hj & ->).
      exists j. split; [lia | reflexivity].
Qed.

Lemma X17_scores_are_hundredths_witness :
  evaluate_answers Sample.store Sample.request
  = (fst (evaluate_answers Sample.store Sample.request), Ok Sample.evaluation) /\
  exists k, 0 <= k /\ e_total_score Sample.evaluation = PyFloat.lit k 100.
Proof.
  assert (H : evaluate_answers Sample.store Sample.request
              = (fst (evaluate_answers Sample.store Sample.request),
                 Ok Sample.evaluation))
    by (vm_compute; reflexivity).
  split; [exact H |].
  apply (X17_scores_are_hundredths _ _ _ _ H).
Defined.

Lemma of_int_eq (v : Z) (x : Q) :
  (x == inject_Z v)%Q -> PyFloat.rnd x = PyFloat.of_int v.
Proof. intros H. unfold PyFloat.of_int. apply PyFloatFacts.rnd_compat. exact H. Qed.

(** Adding whole scores is exact below [2^53]. *)
Lemma fold_add_const (v : Z) (l : list PyFloat.float) :
  0 <= v ->
  Forall (fun s => s = PyFloat.of_int v) l ->
  forall a : Z,
    0 <= a -> a + len l * v < 2 ^ 53 ->
    fold_left PyFloat.add l (PyFloat.of_int a) = PyFloat.of_int (a + len l * v).
Proof.
  intros Hv Hall. induction Hall as [| s l -> _ IH]; intros a Ha Hb.
  - unfold len. simpl. f_equal. lia.
  - assert (Hlen : len (PyFloat.of_int v :: l) = 1 + len l)
      by (unfold len; simpl List.length; lia).
    rewrite Hlen in *.
    assert (Hl0 : 0 <= len l) by (unfold len; lia).
    cbn [fold_left].
    assert (Hadd : PyFloat.add (PyFloat.of_int a) (PyFloat.of_int v) = PyFloat.of_int (a + v)).
    { unfold PyFloat.add. apply of_int_eq.
      rewrite !PyFloatFacts.of_int_exact by nia. rewrite inject_Z_plus. reflexivity. }
    rewrite Hadd, IH by nia. f_equal. lia.
Qed.

Lemma round_of_int (v : Z) :
  0 <= v < 2 ^ 53 -> PyFloat.round (PyFloat.of_int v) 2 = PyFloat.of_int v.
Proof.
  intros Hv. unfold PyFloat.round. change (10 ^ Z.of_nat 2) with 100.
  assert (E : (PyFloat.of_int v * inject_Z 100 == inject_Z (v * 100))%Q).
  { rewrite PyFloatFacts.of_int_exact by exact Hv. rewrite inject_Z_mult. reflexivity. }
  assert (R : PyFloat.rhe (PyFloat.of_int v * inject_Z 100) = v * 100).
  { apply Z.le_antisymm; [apply PyFloatFacts.rhe_le | apply PyFloatFacts.rhe_ge];
      rewrite E; apply Qle_refl. }
  rewrite R. apply of_int_eq. rewrite inject_Z_mult. field.
Qed.

(** The total of equal whole scores is that score, for a number of
    scores whose hundredfold is below [2^53]. *)
Lemma total_score_const (v : Z) (scores : list PyFloat.float) :
  0 <= v <= 100 ->
  scores <> [] ->
  Forall (fun s => s = PyFloat.of_int v) scores ->
  100 * len scores < 2 ^ 53 ->
  Spec.total_score scores = PyFloat.of_int v.
Proof.
  intros Hv Hne Hall Hb.
  assert (Hn : 0 < len scores).
  { destruct scores; [contradiction | unfold len; simpl List.length; lia]. }
  unfold Spec.total_score. destruct scores as [| s l] eqn:E; [contradiction |].
  rewrite <- E in *. clear E s l.
  unfold Spec.mean, Spec.float_sum.
  change (PyFloat.lit 0 1) with (PyFloat.of_int 0).
  rewrite (fold_add_const v scores) by (try assumption; nia).
  replace (0 + len scores * v) with (len scores * v) by lia.
  assert (Hd : PyFloat.div_int (PyFloat.of_int (len scores * v)) (len scores)
               = PyFloat.of_int v).
  { unfold PyFloat.div_int. apply of_int_eq.
    rewrite !PyFloatFacts.of_int_exact by nia.
    rewrite inject_Z_mult. field. apply inject_Z_pos_neq_0. exact Hn. }
  rewrite Hd. apply round_of_int. lia.
Qed.

Lemma ge_int_of_int (v n : Z) :
  0 <= v < 2 ^ 53 -> PyFloat.ge_int (PyFloat.of_int v) n = (n <=? v).
Proof.
  intros Hv. unfold PyFloat.ge_int.
  destruct (Z.leb_spec n v) as [H | H].
  - apply Qle_bool_iff. rewrite PyFloatFacts.of_int_exact by exact Hv.
    rewrite <- Zle_Qle. exact H.
  - destruct (Qle_bool (inject_Z n) (PyFloat.of_int v)) eqn:E; [| reflexivity].
    apply Qle_bool_iff in E. rewrite PyFloatFacts.of_int_exact in E by exact Hv.
    rewrite <- Zle_Qle in E. lia.
Qed.

(** X18.  The mean of equal scores is that score.  When every
    per-question score of an evaluation that the handler returns is
    the same whole number v (such as 100.0 when every answer covers
    every keyword, or 20.0 or 50.0 on questions without keywords),
    and the hundredfold of the number of answers is below 2^53, the
    total score is v exactly, and the verdict is the one of v:
    "Strong match" from 75, "Promising but needs work" from 50,
    "Below expectations" under 50. *)
Theorem X18_equal_scores :
  forall (st st' : Store) (req : EvaluateRequest) (ev : Evaluation) (v : Z),
    evaluate_answers st req = (st', Ok ev) ->
    0 <= v <= 100 ->
    e_per_question_scores ev <> [] ->
    Forall (fun s => s = PyFloat.lit v 1) (e_per_question_scores ev) ->
    100 * len (er_answers req) < 2 ^ 53 ->
    e_total_score ev = PyFloat.lit v 1 /\
    e_verdict ev = (if 75 <=? v then "Strong match"
                    else if 50 <=? v then "Promising but needs work"
                    else "Below expectations").
Proof.
  intros st st' req ev v H Hv Hne Hall Hb.
  destruct (evaluate_answers_ok_inv st st' req ev H) as (qs & _ & Hlen & ->).
  unfold Spec.evaluation_of in *.
  cbn [e_per_question_scores e_total_score e_verdict] in *.
  set (scores := map _ (combine qs (er_answers req))) in *.
  assert (Hl : len scores = len (er_answers req)).
  { unfold len, scores. rewrite length_map, length_combine. lia. }
  assert (Ht : Spec.total_score scores = PyFloat.of_int v).
  { apply total_score_const; try assumption. rewrite Hl. exact Hb. }
  rewrite Ht. split; [reflexivity |].
  unfold verdict_of. rewrite !ge_int_of_int by lia. reflexivity.
Qed.

Lemma X18_equal_scores_witness :
  evaluate_answers Sample2.plain_store Sample2.plain_request
  = (fst (evaluate_answers Sample2.plain_store Sample2.plain_request),
     Ok (mkEvaluation "aa04" "Ada" ["I build things"; "Here"]
           [PyFloat.lit 20 1; PyFloat.lit 20 1]
           ["Could be more specific."; "Could be more specific."]
           (PyFloat.lit 20 1) "Below expectations")) /\
  PyFloat.lit 20 1 = PyFloat.lit 20 1 /\
  "Below expectations" = "Below expectations".
Proof.
  assert (H : evaluate_answers Sample2.plain_store Sample2.plain_request
  = (fst (evaluate_answers Sample2.plain_store Sample2.plain_request),
     Ok (mkEvaluation "aa04" "Ada" ["I build things"; "Here"]
           [PyFloat.lit 20 1; PyFloat.lit 20 1]
           ["Could be more specific."; "Could be more specific."]
           (PyFloat.lit 20 1) "Below expectations")))
    by (vm_compute; reflexivity).
  split; [exact H |].
  apply (X18_equal_scores _ _ _ _ 20 H).
  - lia.
  - discriminate.
  - repeat constructor.
  - vm_compute. reflexivity.
Defined.

(** Below [2^(53-j)] the rounding keeps a whole number of units
    [2^(-k)] with [k >= j]. *)
Lemma rnd_pos_fine (x : Q) (j : Z) :
  0 <= j <= 1074 -> (0 < x)%Q -> (x < PyFloat.pow2 (53 - j))%Q ->
  exists k : Z, j <= k /\
    (PyFloat.rnd_pos x
     == inject_Z (PyFloat.rhe (x * PyFloat.pow2 k)) * PyFloat.pow2 (- k))%Q.
Proof.
  intros Hj Hx Hlt.
  pose proof (PyFloatFacts.binade_lt x (53 - j) Hx Hlt) as Hb.
  unfold PyFloat.rnd_pos.
  set (t := Z.max (PyFloat.binade x - 52) (-1074)).
  exists (- t). split; [lia |].
  rewrite Qred_correct. rewrite Z.opp_involutive. reflexivity.
Qed.

(** A float [N / 2^j] under [x] is under the rounding of [x]. *)
Lemma rnd_ge_dyadic (x : Q) (N j : Z) :
  0 <= j <= 1074 -> 0 <= N ->
  (inject_Z N * PyFloat.pow2 (- j) <= x)%Q -> (x < PyFloat.pow2 (53 - j))%Q ->
  (inject_Z N * PyFloat.pow2 (- j) <= PyFloat.rnd x)%Q.
Proof.
  intros Hj HN Hle Hlt. unfold PyFloat.rnd.
  pose proof (Qred_correct x) as Hr.
  assert (HD : (0 <= inject_Z N * PyFloat.pow2 (- j))%Q).
  { apply Qmult_le_0_compat.
    - change 0%Q with (inject_Z 0). rewrite <- Zle_Qle. exact HN.
    - apply Qlt_le_weak, PyFloatFacts.pow2_pos. }
  destruct (Qcompare_spec (Qred x) 0) as [E | L | G].
  - rewrite Hr in E. rewrite <- E. exact Hle.
  - rewrite Hr in L. exfalso.
    apply (Qlt_not_le _ _ L). apply Qle_trans with (inject_Z N * PyFloat.pow2 (- j))%Q;
      assumption.
  - rewrite <- Hr in Hle, Hlt.
    destruct (rnd_pos_fine (Qred x) j Hj G Hlt) as (k & Hk & ->).
    assert (Hsplit : (PyFloat.pow2 (- j) * PyFloat.pow2 k == inject_Z (2 ^ (k - j)))%Q).
    { rewrite <- PyFloatFacts.pow2_add. rewrite <- PyFloatFacts.pow2_int by lia.
      replace (- j + k) with (k - j) by lia. reflexivity. }
    assert (Hr' : N * 2 ^ (k - j) <= PyFloat.rhe (Qred x * PyFloat.pow2 k)).
    { apply PyFloatFacts.rhe_ge. rewrite inject_Z_mult, <- Hsplit, Qmult_assoc.
      apply Qmult_le_compat_r; [exact Hle | apply Qlt_le_weak, PyFloatFacts.pow2_pos]. }
    apply Qle_trans with (inject_Z (N * 2 ^ (k - j)) * PyFloat.pow2 (- k))%Q.
    + rewrite inject_Z_mult, <- Hsplit, <- !Qmult_assoc, PyFloatFacts.pow2_cancel,
        Qmult_1_r. apply Qle_refl.
    + apply Qmult_le_compat_r; [| apply Qlt_le_weak, PyFloatFacts.pow2_pos].
      rewrite <- Zle_Qle. exact Hr'.
Qed.

(** Rounding to the nearest whole number does not go under a number
    that is more than one half below. *)
Lemma rhe_ge_half (x : Q) (M : Z) :
  (inject_Z M - (1 # 2) < x)%Q -> M <= PyFloat.rhe x.
Proof.
  intros H. unfold PyFloat.rhe.
  pose proof (Qfloor_le x) as Hf. pose proof (Qlt_floor x) as Hc.
  assert (Hfl : M - 1 <= Qfloor x).
  { destruct (Z_lt_le_dec (Qfloor x) (M - 1)) as [L | L]; [| exact L]. exfalso.
    assert (L' : (inject_Z (Qfloor x + 1) <= inject_Z M + inject_Z (-1))%Q)
      by (rewrite <- inject_Z_plus, <- Zle_Qle; lia).
    change (inject_Z (-1)) with (-1 # 1)%Q in L'.
    set (fx := inject_Z (Qfloor x + 1)) in *. set (m := inject_Z M) in *.
    clearbody fx m. clear - H Hc L'. lra. }
  destruct (Z.eq_dec (Qfloor x) (M - 1)) as [E | NE].
  - assert (G : Qcompare (x - inject_Z (Qfloor x)) (1 # 2) = Gt).
    { apply (proj1 (Qgt_alt _ _)). rewrite E. replace (M - 1) with (M + -1) by lia.
      rewrite inject_Z_plus. change (inject_Z (-1)) with (-1 # 1)%Q.
      set (m := inject_Z M) in *. clearbody m. clear - H. lra. }
    rewrite G. lia.
  - destruct (Qcompare (x - inject_Z (Qfloor x)) (1 # 2));
      [destruct (Z.even _) | |]; lia.
Qed.

Lemma pow2_m7 : (PyFloat.pow2 (-7) == 1 # 128)%Q.
Proof. unfold Qeq. vm_compute. reflexivity. Qed.

(** The rounded coverage exceeds 70 exactly when more than seven
    keywords in ten are counted, for up to 1280 keywords. *)
Lemma coverage_gt_70 (c n : Z) :
  0 < n <= 1280 -> 0 <= c <= n ->
  (PyFloat.gt_int (PyFloat.round (PyFloat.int_truediv (100 * c) n) 2) 70 = true
   <-> 7 * n < 10 * c).
Proof.
  intros Hn Hc.
  assert (Hnq : (0 < inject_Z n)%Q).
  { change 0%Q with (inject_Z 0). rewrite <- Zlt_Qlt. lia. }
  split.
  - intros G. destruct (Z_lt_le_dec (7 * n) (10 * c)) as [L | L]; [exact L |]. exfalso.
    destruct (PyFloatFacts.int_truediv_bounds (100 * c) n 70) as [H0 H70]; try lia.
    destruct (PyFloatFacts.round_bounds _ 2 70 H0 H70) as [_ Hr]; [lia |].
    apply gt_int_spec in G. apply (Qlt_not_le _ _ G Hr).
  - intros L. apply gt_int_spec.
    set (D := (inject_Z 8961 * PyFloat.pow2 (-7))%Q).
    assert (HD70 : (inject_Z 70 < D)%Q).
    { unfold D. rewrite pow2_m7. reflexivity. }
    apply Qlt_le_trans with D; [exact HD70 |].
    destruct (PyFloatFacts.int_truediv_bounds (100 * c) n 100) as [H0 H100]; try lia.
    set (x := PyFloat.int_truediv (100 * c) n) in *.
    assert (Hx : (D <= x)%Q).
    { unfold x, PyFloat.int_truediv, D. apply (rnd_ge_dyadic _ 8961 7); [lia | lia | |].
      - apply Qle_shift_div_l; [exact Hnq |]. change (- (7)) with (-7). rewrite pow2_m7.
        assert (Hz : (inject_Z (8961 * n) <= inject_Z (128 * (100 * c)))%Q)
          by (rewrite <- Zle_Qle; lia).
        rewrite !inject_Z_mult in Hz. rewrite inject_Z_mult.
        change (inject_Z 8961) with (8961 # 1)%Q in *.
        change (inject_Z 128) with (128 # 1)%Q in *.
        change (inject_Z 100) with (100 # 1)%Q in *.
        set (a := inject_Z n) in *. set (b := inject_Z c) in *.
        clearbody a b. clear - Hz. lra.
      - apply Qle_lt_trans with (inject_Z 100).
        + apply Qle_shift_div_r; [exact Hnq |].
          rewrite <- inject_Z_mult, <- Zle_Qle. lia.
        + reflexivity. }
    unfold PyFloat.round. change (10 ^ Z.of_nat 2) with 100.
    set (k := PyFloat.rhe (x * inject_Z 100)).
    assert (Hk1 : 7001 <= k).
    { apply rhe_ge_half.
      assert (HD : (inject_Z 7001 - (1 # 2) < D * inject_Z 100)%Q).
      { unfold D. rewrite pow2_m7. reflexivity. }
      apply Qlt_le_trans with (D * inject_Z 100)%Q; [exact HD |].
      apply Qmult_le_compat_r; [exact Hx | discriminate]. }
    assert (Hk2 : k <= 10000).
    { apply PyFloatFacts.rhe_le. change (inject_Z 10000) with (inject_Z 100 * inject_Z 100)%Q.
      apply Qmult_le_compat_r; [exact H100 | discriminate]. }
    unfold D. apply (rnd_ge_dyadic _ 8961 7); [lia | lia | |].
    + apply Qle_shift_div_l; [reflexivity |].
      apply Qle_trans with (inject_Z 7001).
      * change (- (7)) with (-7). rewrite pow2_m7. discriminate.
      * rewrite <- Zle_Qle. exact Hk1.
    + apply Qle_lt_trans with (inject_Z 100).
      * apply Qle_shift_div_r; [reflexivity |].
        rewrite <- inject_Z_mult, <- Zle_Qle. lia.
      * reflexivity.
Qed.

(** X19.  "Good coverage." in terms of counts.  For a question with
    at most 1280 keywords (and at least one), the feedback is
    "Good coverage." exactly when more than seven keywords in ten are
    counted in the answer: 7 * n < 10 * c, for n keywords of which c
    are counted.  The rounding of the score to two decimal places
    does not move the threshold. *)
Theorem X19_good_coverage_by_count :
  forall (q : Question) (ans : string),
    let n := len (q_keywords q) in
    let c := covered (q_keywords q) ans in
    0 < n <= 1280 ->
    (feedback_of (score_of q ans) (missing (q_keywords q) ans) = "Good coverage."
     <-> 7 * n < 10 * c).
Proof.
  intros q ans n c Hn.
  assert (Hc : 0 <= c <= n).
  { unfold c, n, covered, len. rewrite py_sum_ones.
    pose proof (filter_length_le
                  (fun k => PyStr.contains ans (PyStr.lower k)) (q_keywords q)). lia. }
  assert (Hs : score_of q ans = PyFloat.round (PyFloat.int_truediv (100 * c) n) 2).
  { unfold score_of. destruct (q_keywords q) eqn:K; [| reflexivity].
    unfold n, len in Hn. simpl in Hn. lia. }
  rewrite <- (coverage_gt_70 c n Hn Hc), <- Hs.
  unfold feedback_of.
  destruct (PyFloat.gt_int (score_of q ans) 70).
  - split; reflexivity.
  - split; [| discriminate].
    destruct (missing (q_keywords q) ans); discriminate.
Qed.

Lemma X19_good_coverage_by_count_witness :
  feedback_of
    (score_of (mkQuestion "State management?" ["redux"; "zustand"; "context"; "atom"; "query"])
              (PyStr.lower "Redux or Zustand, plus Context and react-query"))
    (missing ["redux"; "zustand"; "context"; "atom"; "query"]
             (PyStr.lower "Redux or Zustand, plus Context and react-query"))
  = "Good coverage.".
Proof.
  apply (proj2 (X19_good_coverage_by_count
                  (mkQuestion "State management?"
                     ["redux"; "zustand"; "context"; "atom"; "query"])
                  (PyStr.lower "Redux or Zustand, plus Context and react-query")
                  ltac:(vm_compute; split; [reflexivity | discriminate]))).
  vm_compute. reflexivity.
Defined.

(* ================================================================== *)
(** * Further facts: repeated requests and diagnostics *)
(* ================================================================== *)

Lemma load_questions_same (st st' : Store) (interview_id : string) :
  read_fault st' = read_fault st ->
  dict_get_default (collections st') "interview" []
  = dict_get_default (collections st) "interview" [] ->
  load_questions st' interview_id = load_questions st interview_id.
Proof.
  intros Hr Hc. unfold load_questions, get_documents. rewrite Hr, Hc. reflexivity.
Qed.

Lemma evaluate_answers_keeps_interviews (st : Store) (req : EvaluateRequest) :
  read_fault (fst (evaluate_answers st req)) = read_fault st /\
  dict_get_default (collections (fst (evaluate_answers st req))) "interview" []
  = dict_get_default (collections st) "interview" [].
Proof.
  unfold evaluate_answers.
  destruct (load_questions st (er_interview_id req)) as [q_models | |];
    [| cbn [fst]; auto | cbn [fst]; auto].
  destruct (score_answers req q_models) as [ev | |];
    [| cbn [fst]; auto | cbn [fst]; auto].
  destruct (create_document st "evaluation" (dump_evaluation ev)) as [st' res] eqn:C.
  cbn [fst].
  destruct (create_document_effect _ _ _ _ _ C) as (Hother & Hr & _ & _).
  split; [exact Hr |]. apply Hother. discriminate.
Qed.

(** X20.  Evaluations do not interfere.  A request answered after any
    other evaluation request gets the outcome it would have got
    before it: evaluating leaves the interviews and their lookup as
    they were, so that submitting the same answers again gives the
    same scores, feedback, total and verdict (each submission being
    stored when writes succeed). *)
Theorem X20_evaluations_do_not_interfere :
  forall (st : Store) (req other : EvaluateRequest),
    snd (evaluate_answers (fst (evaluate_answers st other)) req)
    = snd (evaluate_answers st req).
Proof.
  intros st req other.
  destruct (evaluate_answers_keeps_interviews st other) as [Hr Hc].
  set (st1 := fst (evaluate_answers st other)) in *.
  unfold evaluate_answers.
  rewrite (load_questions_same st st1 _ Hr Hc).
  destruct (load_questions st (er_interview_id req)) as [q_models | |];
    [| reflexivity | reflexivity].
  destruct (score_answers req q_models) as [ev | |]; [| reflexivity | reflexivity].
  destruct (create_document st1 _ _). destruct (create_document st _ _). reflexivity.
Qed.

Lemma str_take_length (n : nat) (s : string) : (String.length (str_take n s) <= n)%nat.
Proof.
  revert s. induction n as [| n IH]; intros s; [simpl; lia |].
  destruct s as [| c s]; simpl; [lia |]. specialize (IH s). lia.
Qed.


(* ================================================================== *)
(** * The lookup of the interview *)
(* ================================================================== *)

(** Once a document is found, the handler does not answer 404. *)
Lemma evaluate_answers_found (st : Store) (req : EvaluateRequest)
    (docs : list Document) (interview_doc : Document) :
  get_documents st "interview" 100 = inl docs ->
  find_interview docs (er_interview_id req) = Some interview_doc ->
  forall detail, snd (evaluate_answers st req) <> HTTPException 404 detail.
Proof.
  intros Hg Hf detail. unfold evaluate_answers.
  rewrite (load_questions_found _ _ _ _ Hg Hf).
  destruct (py_iter_result (dict_get_default (doc_fields interview_doc) "questions" (VList [])))
    as [[items ->] | ->]; cbn [bind]; [| cbn [snd]; discriminate].
  destruct (convert_questions_result items) as [(ms & -> & _) | ->];
    [| cbn [snd]; discriminate].
  destruct (score_answers_result req ms) as [[ev ->] | [[-> _] | [-> _]]].
  - destruct (create_document st "evaluation" _). cbn [snd]. discriminate.
  - cbn [snd]. discriminate.
  - cbn [snd]. discriminate.
Qed.

(** C5.  The handler reads the first 100 documents of the collection
    of interviews (all of them when there are fewer) and scans them in
    order.  A document matches when the string of its storage-assigned
    identifier, or its field "id", equals the requested identifier.
    The first document read that matches is the interview: its
    questions are the ones the handler converts and scores, the
    request is not answered by the HTTP error 404 and, when its
    questions are valid and the answers are as many, the evaluation of
    the answers against them is returned.  The handler raises the HTTP
    error 404, leaving the store as it was, when none of the documents
    read matches, and then only. *)
Theorem C5_lookup :
  forall (st : Store) (req : EvaluateRequest) (docs : list Document),
    get_documents st "interview" 100 = inl docs ->
    let interview_id := er_interview_id req in
    let stored := dict_get_default (collections st) "interview" [] in
    docs = firstn 100 stored /\
    (List.length docs <= 100)%nat /\
    (exists rest, stored = (docs ++ rest)%list) /\
    (forall d, doc_matches interview_id d = true <->
               doc__id d = interview_id \/
               dict_get (doc_fields d) "id" = Some (VStr interview_id)) /\
    (forall pre d post,
        docs = (pre ++ d :: post)%list ->
        (forall x, In x pre -> doc_matches interview_id x = false) ->
        doc_matches interview_id d = true ->
        find_interview docs interview_id = Some d /\
        load_questions st interview_id
        = bind (py_iter (dict_get_default (doc_fields d) "questions" (VList [])))
               convert_questions /\
        (forall detail, snd (evaluate_answers st req) <> HTTPException 404 detail) /\
        (forall qs : list Question,
            load_questions st interview_id = Ok (map QModel qs) ->
            List.length (er_answers req) = List.length qs ->
            snd (evaluate_answers st req) = Ok (Spec.evaluation_of req qs))) /\
    ((forall d, In d docs -> doc_matches interview_id d = false) ->
     evaluate_answers st req = (st, HTTPException 404 "Interview not found")) /\
    (forall detail,
        snd (evaluate_answers st req) = HTTPException 404 detail ->
        forall d, In d docs -> doc_matches interview_id d = false).
Proof.
  intros st req docs Hget interview_id stored.
  assert (Hdocs : docs = firstn 100 stored).
  { unfold get_documents in Hget. fold stored in Hget.
    destruct (read_fault st); congruence. }
  split; [exact Hdocs |].
  split; [rewrite Hdocs, length_firstn; apply Nat.le_min_l |].
  split.
  { exists (skipn 100 stored). rewrite Hdocs. symmetry. apply firstn_skipn. }
  split; [intros d; apply doc_matches_spec |].
  split; [| split].
  - intros pre d post Hsplit Hpre Hd.
    assert (Hfind : find_interview docs interview_id = Some d).
    { rewrite Hsplit. apply find_interview_first; assumption. }
    split; [exact Hfind |].
    split; [apply (load_questions_found _ _ _ _ Hget Hfind) |].
    split; [apply (evaluate_answers_found _ _ _ _ Hget Hfind) |].
    intros qs Hload Hlen.
    rewrite (evaluate_answers_ok st req qs Hload Hlen). reflexivity.
  - intros Hnone. apply find_interview_none in Hnone.
    unfold evaluate_answers, load_questions. rewrite Hget.
    fold interview_id. rewrite Hnone. reflexivity.
  - intros detail H404.
    apply find_interview_none.
    destruct (find_interview docs interview_id) as [found |] eqn:F; [| reflexivity].
    exfalso. apply (evaluate_answers_found _ _ _ _ Hget F detail). exact H404.
Qed.

Lemma C5_lookup_witness :
  get_documents Sample.store "interview" 100 = inl [Sample.interview_doc] /\
  evaluate_answers Sample.store Sample.unknown_request
  = (Sample.store, HTTPException 404 "Interview not found") /\
  find_interview [Sample.interview_doc] "65f1c0ffee" = Some Sample.interview_doc /\
  snd (evaluate_answers Sample.store Sample.request) = Ok Sample.evaluation.
Proof.
  assert (H : get_documents Sample.store "interview" 100 = inl [Sample.interview_doc])
    by (vm_compute; reflexivity).
  split; [exact H |].
  split.
  - destruct (C5_lookup Sample.store Sample.unknown_request _ H)
      as (_ & _ & _ & _ & _ & Hnone & _).
    apply Hnone. intros d [<- | []]. vm_compute. reflexivity.
  - destruct (C5_lookup Sample.store Sample.request _ H)
      as (_ & _ & _ & _ & Hfound & _ & _).
    destruct (Hfound [] Sample.interview_doc [] eq_refl) as (Hf & _ & _ & Hok).
    + intros x [].
    + vm_compute. reflexivity.
    + split; [exact Hf |].
      rewrite (Hok Sample.questions); [vm_compute; reflexivity | vm_compute; reflexivity
                                      | reflexivity].
Defined.

(* ================================================================== *)
(** * Diagnostics *)
(* ================================================================== *)

Lemma str_take_prefix (n : nat) (e : string) : String.prefix (str_take n e) e = true.
Proof.
  revert e. induction n as [| n IH]; intros e; [destruct e; reflexivity |].
  destruct e as [| c e]; [reflexivity |]. simpl.
  destruct (Ascii.ascii_dec c c); [apply IH | contradiction].
Qed.

(** X21.  The answer of [test_database].  Its fields "database_url"
    and "database_name" say only whether the two environment
    variables are set and not empty, whatever the handle is and does:
    the name of the database, written first, is always overwritten.
    At most 10 collection names are listed.  The status is
    "Connected" exactly when there is a handle whose name can be
    read.  With such a handle, the first 10 (or fewer) names are
    listed; when their listing fails, none is listed and the message
    "Connected but Error" carries at most the first 50 characters of
    the text of the exception.  When reading the name of the handle
    raises, the outer handler answers "Error" with at most the first
    50 characters of the text, the status stays "Not Connected" and no
    name is listed.  Without a handle the message is
    "Available but not initialized". *)
Theorem X21_test_database :
  forall env : Env,
    let r := test_database env in
    dg_backend r = mark_ok ++ " Running" /\
    dg_database_url r = Some (set_or_not (env_DATABASE_URL env)) /\
    dg_database_name r = Some (set_or_not (env_DATABASE_NAME env)) /\
    (List.length (dg_collections r) <= 10)%nat /\
    (dg_connection_status r = "Connected" <->
     exists db attribute, env_db env = Some db /\ db_name db = inl attribute) /\
    (dg_connection_status r = "Connected" \/ dg_connection_status r = "Not Connected") /\
    (forall attribute names,
        env_db env = Some (mkDb (inl attribute) (inl names)) ->
        dg_collections r = firstn 10 names /\
        dg_database r = mark_ok ++ " Connected & Working") /\
    (forall attribute e,
        env_db env = Some (mkDb (inl attribute) (inr e)) ->
        dg_collections r = [] /\
        exists text, dg_database r = mark_warn ++ "  Connected but Error: " ++ text /\
                     (String.length text <= 50)%nat /\
                     String.prefix text e = true) /\
    (forall e listing,
        env_db env = Some (mkDb (inr e) listing) ->
        dg_connection_status r = "Not Connected" /\
        dg_collections r = [] /\
        exists text, dg_database r = mark_no ++ " Error: " ++ text /\
                     (String.length text <= 50)%nat /\
                     String.prefix text e = true) /\
    (env_db env = None ->
     dg_connection_status r = "Not Connected" /\
     dg_collections r = [] /\
     dg_database r = mark_warn ++ "  Available but not initialized").
Proof.
  intros env r. unfold r, test_database, probe_database. clear r.
  destruct (env_db env) as [[[attribute | e0] [names | e]] |];
    cbn [dg_backend dg_database_url dg_database_name dg_connection_status
         dg_collections dg_database db_name db_list_collection_names].
  - split; [reflexivity |]. split; [reflexivity |]. split; [reflexivity |].
    split; [rewrite length_firstn; apply Nat.le_min_l |].
    split; [split; [intros _; eexists; eexists; split; reflexivity | reflexivity] |].
    split; [left; reflexivity |].
    split; [intros a0 ns H; injection H as _ <-; auto |].
    split; [intros a0 e1 H; discriminate H |].
    split; [intros e1 l H; discriminate H | intros H; discriminate H].
  - split; [reflexivity |]. split; [reflexivity |]. split; [reflexivity |].
    split; [simpl; lia |].
    split; [split; [intros _; eexists; eexists; split; reflexivity | reflexivity] |].
    split; [left; reflexivity |].
    split; [intros a0 ns H; discriminate H |].
    split; [| split; [intros e1 l H; discriminate H | intros H; discriminate H]].
    intros a0 e1 H. injection H as _ <-. split; [reflexivity |].
    exists (str_take 50 e).
    split; [reflexivity |]. split; [apply str_take_length | apply str_take_prefix].
  - split; [reflexivity |]. split; [reflexivity |]. split; [reflexivity |].
    split; [simpl; lia |].
    split.
    { split; [discriminate |].
      intros (db & a0 & H & Hn). injection H as <-. discriminate Hn. }
    split; [right; reflexivity |].
    split; [intros a0 ns H; discriminate H |].
    split; [intros a0 e1 H; discriminate H |].
    split; [| intros H; discriminate H].
    intros e1 l H. injection H as <- _. split; [reflexivity |]. split; [reflexivity |].
    exists (str_take 50 e0).
    split; [reflexivity |]. split; [apply str_take_length | apply str_take_prefix].
  - split; [reflexivity |]. split; [reflexivity |]. split; [reflexivity |].
    split; [simpl; lia |].
    split.
    { split; [discriminate |].
      intros (db & a0 & H & Hn). injection H as <-. discriminate Hn. }
    split; [right; reflexivity |].
    split; [intros a0 ns H; discriminate H |].
    split; [intros a0 e1 H; discriminate H |].
    split; [| intros H; discriminate H].
    intros e1 l H. injection H as <- _. split; [reflexivity |]. split; [reflexivity |].
    exists (str_take 50 e0).
    split; [reflexivity |]. split; [apply str_take_length | apply str_take_prefix].
  - split; [reflexivity |]. split; [reflexivity |]. split; [reflexivity |].
    split; [simpl; lia |].
    split.
    { split; [discriminate |]. intros (db & a0 & H & _). discriminate H. }
    split; [right; reflexivity |].
    split; [intros a0 ns H; discriminate H |].
    split; [intros a0 e1 H; discriminate H |].
    split; [intros e1 l H; discriminate H | intros _; auto].
Qed.

Example test_database_samples :
  dg_database (test_database Sample2.env) = mark_ok ++ " Connected & Working" /\
  dg_database_name (test_database Sample2.env) = Some (mark_no ++ " Not Set") /\
  List.length (dg_collections (test_database Sample2.env)) = 10%nat /\
  dg_database (test_database Sample2.broken_env) = mark_no ++ " Error: connection reset" /\
  dg_connection_status (test_database Sample2.broken_env) = "Not Connected".
Proof. repeat split; reflexivity. Qed.
